(** * Land Cover Classification System Web Service: the data module

    A shallow embedding of [lccs_ws/data.py].  Every function of the module
    talks to one ambient SQLAlchemy session; here the session is an explicit
    state threaded through a small state-and-abort monad.  Tables are lists
    of rows in storage order, so that [first()] is the head of a query. *)

From Stdlib Require Import ZArith QArith.
From Stdlib.Strings Require Import Byte.
From stdpp Require Import base tactics option list strings pretty.

Local Open Scope string_scope.
Local Open Scope list_scope.
Local Open Scope Z_scope.

(** ** Rows of the five tables *)

(** Modelled from the spec: the row types of [lccs_db.models], which the
    module imports; the columns are those listed in the data model. *)
Record LucClassificationSystem := mkSystem {
  cs_id : Z;
  cs_name : string;
  cs_authority_name : string;
  cs_version : string;
  cs_description : option string
}.

Record LucClass := mkClass {
  lc_id : Z;
  lc_name : string;
  lc_code : string;
  lc_description : option string;
  lc_class_system_id : Z;
  lc_class_parent_id : option Z
}.

Record ClassMapping := mkMapping {
  cm_id : Z;
  cm_source_class_id : Z;
  cm_target_class_id : Z;
  cm_description : option string;
  cm_degree_of_similarity : option Q
}.

Record StyleFormats := mkStyleFormat {
  sf_id : Z;
  sf_name : string
}.

Record Styles := mkStyle {
  st_id : Z;
  st_class_system_id : Z;
  st_style_format_id : Z;
  st_mime_type : string;
  st_style : list byte
}.

(** The contents of the store. *)
Record DB := mkDB {
  systems : list LucClassificationSystem;
  classes : list LucClass;
  mappings : list ClassMapping;
  style_formats : list StyleFormats;
  styles : list Styles
}.

(** [db.session]: the rows as committed, and the rows as the open
    transaction sees them (pending additions and deletions are flushed
    before each query, so queries read [working]). *)
Record Session := mkSession {
  committed : DB;
  working : DB
}.

(** ** Aborts and the session monad *)

(** [flask.abort(code, description)]. *)
Record HTTPException := mkAbort {
  code : Z;
  description : string
}.

Inductive Result (A : Type) : Type :=
| Ok (a : A)
| Abort (e : HTTPException).
Arguments Ok {A} a.
Arguments Abort {A} e.

Definition BadRequest : Z := 400.
Definition NotFound : Z := 404.
Definition Conflict : Z := 409.

(** [signals r c]: the call ended in an abort with status code [c]. *)
Definition signals {A} (r : Result A) (c : Z) : Prop :=
  match r with
  | Ok _ => False
  | Abort e => code e = c
  end.

Definition M (A : Type) : Type := Session → Result A * Session.

#[global] Instance M_ret : MRet M := λ A a s, (Ok a, s).

#[global] Instance M_bind : MBind M := λ A B f m s,
  match m s with
  | (Ok a, s') => f a s'
  | (Abort e, s') => (Abort e, s')
  end.

Definition abort {A} (c : Z) (msg : string) : M A :=
  λ s, (Abort (mkAbort c msg), s).

(** The message werkzeug attaches to a 404 raised by [first_or_404]. *)
Definition not_found_description : string :=
  "The requested URL was not found on the server.".

(** [db.session.query(T)]: the rows of a table as the transaction sees them. *)
Definition query {A} (table : DB → list A) : M (list A) :=
  λ s, (Ok (table (working s)), s).

(** [Query.first()] and [Query.first_or_404()]. *)
Definition first {A} (rows : list A) : option A := head rows.

Definition first_or_404 {A} (rows : list A) : M A :=
  match rows with
  | [] => abort NotFound not_found_description
  | r :: _ => mret r
  end.

(** Changes inside the open transaction. *)
Definition modify (f : DB → DB) : M unit :=
  λ s, (Ok tt, mkSession (committed s) (f (working s))).

(** [with db.session.begin_nested(): body].  A savepoint is taken on entry;
    when the body raises, the transaction is rolled back to the savepoint
    and the exception goes on to the caller. *)
Definition begin_nested {A} (body : M A) : M A :=
  λ s, match body s with
       | (Ok a, s') => (Ok a, s')
       | (Abort e, s') => (Abort e, mkSession (committed s') (working s))
       end.

(** [db.session.commit()]. *)
Definition commit : M unit :=
  λ s, (Ok tt, mkSession (working s) (working s)).

(** A [for] loop over a list of descriptors. *)
Fixpoint for_each {A} (xs : list A) (body : A → M unit) : M unit :=
  match xs with
  | [] => mret tt
  | x :: rest => body x ;; for_each rest body
  end.

(** Python's [x is None] on a nullable reference. *)
Definition is_None {A} (v : option A) : bool :=
  match v with
  | None => true
  | Some _ => false
  end.

(** Python truthiness of an optional string and of an optional number. *)
Definition truthy_str (v : option string) : bool :=
  match v with
  | None => false
  | Some s => negb (String.eqb s "")
  end.

Definition truthy_num (v : option Q) : bool :=
  match v with
  | None => false
  | Some q => negb (Qnum q =? 0)
  end.

(** ** The store's part of an insert, a delete and an in-place update *)

(** Modelled from the spec: the identifier generated for a new row; the
    store hands out a key above every key of the table. *)
Definition fresh_id (ids : list Z) : Z :=
  Z.succ (foldr Z.max 0 ids).

(** [db.session.delete(obj)] and the flush of a changed attribute both
    address the row by its primary key. *)
Definition delete_row {A} (key : A → Z) (obj : A) (table : list A) : list A :=
  filter (λ r, key r ≠ key obj) table.

Definition update_row {A} (key : A → Z) (obj : A) (table : list A) : list A :=
  (λ r, if decide (key r = key obj) then obj else r) <$> table.

Arguments delete_row : simpl never.
Arguments update_row : simpl never.

Definition set_systems (f : list LucClassificationSystem → list LucClassificationSystem) (d : DB) : DB :=
  mkDB (f (systems d)) (classes d) (mappings d) (style_formats d) (styles d).
Definition set_classes (f : list LucClass → list LucClass) (d : DB) : DB :=
  mkDB (systems d) (f (classes d)) (mappings d) (style_formats d) (styles d).
Definition set_mappings (f : list ClassMapping → list ClassMapping) (d : DB) : DB :=
  mkDB (systems d) (classes d) (f (mappings d)) (style_formats d) (styles d).
Definition set_style_formats (f : list StyleFormats → list StyleFormats) (d : DB) : DB :=
  mkDB (systems d) (classes d) (mappings d) (f (style_formats d)) (styles d).
Definition set_styles (f : list Styles → list Styles) (d : DB) : DB :=
  mkDB (systems d) (classes d) (mappings d) (style_formats d) (f (styles d)).

(** [db.session.add(obj)]: the new row enters its table with a generated
    identifier, behind the rows already there. *)
Definition add {A} (table : DB → list A) (set : (list A → list A) → DB → DB)
    (key : A → Z) (new : Z → A) : M A :=
  λ s, let row := new (fresh_id (key <$> table (working s))) in
       (Ok row, mkSession (committed s) (set (λ t, t ++ [row]) (working s))).

(** [Query.join(T, on)]: the pairs of rows that satisfy the join condition. *)
Definition join {A B} (l : list A) (r : list B) (on : A * B → Prop)
    `{∀ p, Decision (on p)} : list (A * B) :=
  filter on (cprod l r).

(** [sqlalchemy.distinct]. *)
Definition distinct (l : list Z) : list Z := remove_dups l.

(** ** Request payloads *)

(** One entry of the JSON list handed to [insert_classes]; its keys are the
    keyword arguments of [insert_class]. *)
Record ClassDescriptor := mkClassDescriptor {
  cd_name : string;
  cd_code : string;
  cd_description : option string;
  cd_class_parent_id : option Z
}.

(** An uploaded file: its name and the bytes still to be read. *)
Record FileStorage := mkFile {
  filename : string;
  stream : list byte
}.

Definition read (file : FileStorage) : list byte := stream file.

(** ** Vocabulary of the statements *)

(** The name is already used by a class of the system. *)
Definition name_taken (w : DB) (system_id : Z) (name : string) : Prop :=
  ∃ c, c ∈ classes w ∧ lc_class_system_id c = system_id ∧ lc_name c = name.

(** The class id resolves to a class of the system. *)
Definition class_of_system (w : DB) (class_id system_id : Z) : Prop :=
  ∃ c, c ∈ classes w ∧ lc_id c = class_id ∧ lc_class_system_id c = system_id.

(** The session after a mapping row was added. *)
Definition mapping_added (s : Session) (source_class_id target_class_id : Z)
    (description : option string) (degree_of_similarity : option Q) : Session :=
  mkSession (committed s)
    (set_mappings
       (λ t, t ++ [mkMapping (fresh_id (cm_id <$> mappings (working s)))
                             source_class_id target_class_id
                             description degree_of_similarity])
       (working s)).

(** What a stored mapping becomes under an update: a supplied value is taken
    when it is truthy, and the stored one is kept otherwise. *)
Definition changed_mapping (m : ClassMapping) (description : option string)
    (degree_of_similarity : option Q) : ClassMapping :=
  mkMapping (cm_id m) (cm_source_class_id m) (cm_target_class_id m)
    (if truthy_str description then description else cm_description m)
    (if truthy_num degree_of_similarity then degree_of_similarity
     else cm_degree_of_similarity m).

(** The session after the mapping stored at position [i] was updated and
    the change committed. *)
Definition mapping_updated (s : Session) (i : nat) (m : ClassMapping)
    (description : option string) (degree_of_similarity : option Q) : Session :=
  let w := set_mappings (λ t, <[i := changed_mapping m description degree_of_similarity]> t)
                        (working s) in
  mkSession w w.

(** ** The functions of [data.py] *)

Section data.

(** [lccs_db.utils.get_mimetype], the MIME-type resolver. *)
Variable get_mimetype : string → string.

(** [StyleFormatsSchema().dump] of [lccs_ws.forms]; its argument is a row
    or [None]. *)
Variable Serialized : Type.
Variable StyleFormatsSchema_dump : option StyleFormats → Serialized.

Definition get_style_format (style_format_id : Z) : M Serialized :=
  rows ← query style_formats;
  let style_format := first (filter (λ f, sf_id f = style_format_id) rows) in
  mret (StyleFormatsSchema_dump style_format).

Definition get_classification_system_style (system_id style_format_id : Z)
    : M (option (list byte * string)) :=
  st ← query styles;
  fm ← query style_formats;
  let joined := join st fm (λ p, sf_id p.2 = st_style_format_id p.1) in
  let style_file :=
    first (filter (λ p, st_class_system_id p.1 = system_id
                        ∧ st_style_format_id p.1 = style_format_id) joined) in
  mret ((λ p, (st_style p.1, st_mime_type p.1)) <$> style_file).

Definition get_mappings (system_id_source : Z) : M (list Z) :=
  cls ← query classes;
  let classes_source :=
    lc_id <$> filter (λ c, lc_class_system_id c = system_id_source) cls in
  maps ← query mappings;
  let targets_class_id :=
    distinct (cm_target_class_id <$>
                filter (λ m, cm_source_class_id m ∈ classes_source) maps) in
  sys ← query systems;
  cls ← query classes;
  let systems :=
    distinct ((λ p, cs_id p.1) <$>
                filter (λ p, lc_id p.2 ∈ targets_class_id)
                       (join sys cls (λ p, lc_class_system_id p.2 = cs_id p.1))) in
  mret systems.

Definition get_system_mapping (system_id_source system_id_target : Z)
    : M (list ClassMapping) :=
  cls ← query classes;
  let classes_source :=
    lc_id <$> filter (λ c, lc_class_system_id c = system_id_source) cls in
  cls ← query classes;
  let classes_target :=
    lc_id <$> filter (λ c, lc_class_system_id c = system_id_target) cls in
  maps ← query mappings;
  mret (filter (λ m, cm_source_class_id m ∈ classes_source
                     ∧ cm_target_class_id m ∈ classes_target) maps).

Definition classification_system (system_id : Z) : M LucClassificationSystem :=
  rows ← query systems;
  first_or_404 (filter (λ s, cs_id s = system_id) rows).

Definition create_classification_system (name authority_name version : string)
    (description : option string) : M LucClassificationSystem :=
  rows ← query systems;
  let system :=
    first (filter (λ s, cs_name s = name ∧ cs_version s = version) rows) in
  if negb (is_None system)
  then abort 400 "Classification System already registered!"
  else
    system ← begin_nested
      (add systems set_systems cs_id
           (λ i, mkSystem i name authority_name version description));
    commit;;
    mret system.

(** Modelled from the spec: [LucClass.filter] of [lccs_db], the classes
    that belong to the given system. *)
Definition LucClass_filter (class_system_id : Z) : M (list LucClass) :=
  rows ← query classes;
  mret (filter (λ c, lc_class_system_id c = class_system_id) rows).

Definition delete_classes (class_system : LucClassificationSystem) : M unit :=
  classes ← LucClass_filter (cs_id class_system);
  begin_nested
    (for_each classes (λ c, modify (set_classes (delete_row lc_id c))));;
  commit.

Definition insert_class (system_id : Z) (name code : string)
    (description : option string) (class_parent_id : option Z) : M unit :=
  rows ← query classes;
  let system_class :=
    first (filter (λ c, lc_class_system_id c = system_id ∧ lc_name c = name) rows) in
  if negb (is_None system_class)
  then abort 409 "Class already registered in the system!"
  else
    add classes set_classes lc_id
        (λ i, mkClass i name code description system_id class_parent_id);;
    mret tt.

Definition insert_classes (system_id : Z) (classes_files_json : list ClassDescriptor)
    : M (list LucClass) :=
  system ← classification_system system_id;
  if is_None (Some system)
  then abort 400 ("Error to add new class Classification System "
                    +:+ pretty system_id +:+ " not exist")
  else
    begin_nested
      (for_each classes_files_json
         (λ d, insert_class system_id (cd_name d) (cd_code d)
                            (cd_description d) (cd_class_parent_id d)));;
    commit;;
    rows ← query classes;
    mret (filter (λ c, lc_class_system_id c = system_id) rows).

Definition insert_file (style_format_id system_id : Z) (file : FileStorage)
    : M Styles :=
  system ← classification_system system_id;
  rows ← query style_formats;
  style_format ← first_or_404 (filter (λ f, sf_id f = style_format_id) rows);
  let style_file := read file in
  let mime_type := get_mimetype (filename file) in
  style ← add styles set_styles st_id
             (λ i, mkStyle i system_id style_format_id mime_type style_file);
  commit;;
  mret style.

Definition insert_mapping (system_id_source system_id_target : Z)
    (target_class_id source_class_id : Z) (description : option string)
    (degree_of_similarity : option Q) : M unit :=
  cls ← query classes;
  source_class ← first_or_404
    (filter (λ c, lc_id c = source_class_id
                  ∧ lc_class_system_id c = system_id_source) cls);
  cls ← query classes;
  target_class ← first_or_404
    (filter (λ c, lc_id c = target_class_id
                  ∧ lc_class_system_id c = system_id_target) cls);
  add mappings set_mappings cm_id
      (λ i, mkMapping i source_class_id target_class_id description
                      degree_of_similarity);;
  mret tt.

(** An attribute assignment on a loaded mapping: the object changes and the
    change reaches its row. *)
Definition setattr_mapping (changed : ClassMapping) : M ClassMapping :=
  modify (set_mappings (update_row cm_id changed));;
  mret changed.

Definition update_mapping (system_id_source system_id_target : Z)
    (target_class_id source_class_id : Z) (description : option string)
    (degree_of_similarity : option Q) : M unit :=
  cls ← query classes;
  source_class ← first_or_404
    (filter (λ c, lc_id c = source_class_id
                  ∧ lc_class_system_id c = system_id_source) cls);
  cls ← query classes;
  target_class ← first_or_404
    (filter (λ c, lc_id c = target_class_id
                  ∧ lc_class_system_id c = system_id_target) cls);
  maps ← query mappings;
  mapping ← first_or_404
    (filter (λ m, cm_source_class_id m = source_class_id
                  ∧ cm_target_class_id m = target_class_id) maps);
  begin_nested
    (mapping ← (if truthy_str description
                then setattr_mapping
                       (mkMapping (cm_id mapping) (cm_source_class_id mapping)
                                  (cm_target_class_id mapping) description
                                  (cm_degree_of_similarity mapping))
                else mret mapping);
     (if truthy_num degree_of_similarity
      then setattr_mapping
             (mkMapping (cm_id mapping) (cm_source_class_id mapping)
                        (cm_target_class_id mapping) (cm_description mapping)
                        degree_of_similarity)
      else mret mapping);;
     mret tt);;
  commit.

Definition delete_mappings (system_id_source system_id_target : Z) : M unit :=
  mappings ← get_system_mapping system_id_source system_id_target;
  if is_None (Some mappings)
  then abort 400 "Error to delete mapping"
  else
    begin_nested
      (for_each mappings (λ m, modify (set_mappings (delete_row cm_id m))));;
    commit.

Definition create_style_format (name : string) : M StyleFormats :=
  rows ← query style_formats;
  let style_format := first (filter (λ f, sf_name f = name) rows) in
  if negb (is_None style_format)
  then abort 400 ("Error to add new class style format " +:+ name
                    +:+ " already exist")
  else
    style_format ← begin_nested
      (add style_formats set_style_formats sf_id (λ i, mkStyleFormat i name));
    commit;;
    mret style_format.

Definition delete_style_format (style_format_id : Z) : M unit :=
  rows ← query style_formats;
  style_format ← first_or_404 (filter (λ f, sf_id f = style_format_id) rows);
  modify (set_style_formats (delete_row sf_id style_format));;
  commit.

Definition update_style_format (style_format_id : Z) (name : string)
    : M StyleFormats :=
  rows ← query style_formats;
  style_format ← first_or_404 (filter (λ f, sf_id f = style_format_id) rows);
  style_format ← begin_nested
    (let changed := mkStyleFormat (sf_id style_format) name in
     modify (set_style_formats (update_row sf_id changed));;
     mret changed);
  commit;;
  mret style_format.

Definition get_identifier_style_format (style_format_name : string)
    : M StyleFormats :=
  rows ← query style_formats;
  first_or_404 (filter (λ f, sf_name f = style_format_name) rows).

End data.

(** ** The other functions of [data.py] *)

(** One entry of the JSON list handed to [insert_mappings] and to
    [update_mappings]; its keys are the keyword arguments of
    [insert_mapping] and [update_mapping]. *)
Record MappingDescriptor := mkMappingDescriptor {
  md_target_class_id : Z;
  md_source_class_id : Z;
  md_description : option string;
  md_degree_of_similarity : option Q
}.

(** The columns that [get_classification_system_class] selects. *)
Definition class_columns (c : LucClass)
    : Z * string * string * option string * option Z :=
  (lc_id c, lc_name c, lc_code c, lc_description c, lc_class_parent_id c).

Section readers_and_writers.

Variable get_mimetype : string → string.

(** The schemas of [lccs_ws.forms]: one [dump] for each shape of argument
    that the module hands to them. *)
Variable Serialized : Type.
Variable ClassificationSystemSchema_dump : LucClassificationSystem → Serialized.
Variable ClassificationSystemSchema_dump_many
  : list LucClassificationSystem → Serialized.
Variable ClassesSchema_dump_many : list LucClass → Serialized.
Variable ClassesSchema_dump_columns
  : Z * string * string * option string * option Z → Serialized.
Variable StyleFormatsSchema_dump_many_ids : list Z → Serialized.
Variable ClassesMappingSchema_dump_many : list ClassMapping → Serialized.

Definition get_classification_systems : M Serialized :=
  system ← query systems;
  mret (ClassificationSystemSchema_dump_many system).

Definition get_classification_system (system_id : Z) : M Serialized :=
  rows ← query systems;
  system ← first_or_404 (filter (λ s, cs_id s = system_id) rows);
  mret (ClassificationSystemSchema_dump system).

Definition get_classification_system_classes (system_id : Z) : M Serialized :=
  rows ← query systems;
  system ← first_or_404 (filter (λ s, cs_id s = system_id) rows);
  cls ← query classes;
  sys ← query systems;
  let classes :=
    (λ p, p.1) <$>
      filter (λ p, cs_id p.2 = system_id)
             (join cls sys (λ p, lc_class_system_id p.1 = cs_id p.2)) in
  mret (ClassesSchema_dump_many classes).

Definition get_classification_system_class (system_id class_id : Z)
    : M Serialized :=
  cls ← query classes;
  sys ← query systems;
  class_info ← first_or_404
    ((λ p, class_columns p.1) <$>
       filter (λ p, cs_id p.2 = system_id ∧ lc_id p.1 = class_id)
              (join cls sys (λ p, lc_class_system_id p.1 = cs_id p.2)));
  mret (ClassesSchema_dump_columns class_info).

Definition get_style_formats : M Serialized :=
  rows ← query style_formats;
  let style_formats := sf_id <$> rows in
  mret (StyleFormatsSchema_dump_many_ids style_formats).

(** Without a truthy [system_id] the function falls off its end and the
    caller gets [None]. *)
Definition get_system_style_format (system_id : Z) : M (option (list Z)) :=
  if negb (system_id =? 0)
  then
    rows ← query styles;
    let style_formats_id :=
      st_style_format_id <$> filter (λ st, st_class_system_id st = system_id) rows in
    mret (Some style_formats_id)
  else mret None.

Definition get_mapping (system_id_source system_id_target : Z) : M Serialized :=
  mappings ← get_system_mapping system_id_source system_id_target;
  mret (ClassesMappingSchema_dump_many mappings).

Definition delete_classification_system (system_id : Z) : M unit :=
  rows ← query systems;
  system ← first_or_404 (filter (λ s, cs_id s = system_id) rows);
  modify (set_systems (delete_row cs_id system));;
  commit.




Definition delete_file (style_format_id system_id : Z) : M unit :=
  rows ← query styles;
  style_to_delete ← first_or_404
    (filter (λ st, st_style_format_id st = style_format_id
                   ∧ st_class_system_id st = system_id) rows);
  begin_nested (modify (set_styles (delete_row st_id style_to_delete)));;
  commit.

Definition insert_mappings (system_id_source system_id_target : Z)
    (mapping_file : list MappingDescriptor) : M Serialized :=
  for_each mapping_file
    (λ mapping,
       begin_nested
         (insert_mapping system_id_source system_id_target
            (md_target_class_id mapping) (md_source_class_id mapping)
            (md_description mapping) (md_degree_of_similarity mapping));;
       commit);;
  mappings ← get_mapping system_id_source system_id_target;
  mret mappings.

Definition update_mappings (system_id_source system_id_target : Z)
    (mappings : list MappingDescriptor) : M Serialized :=
  for_each mappings
    (λ mapping,
       update_mapping system_id_source system_id_target
         (md_target_class_id mapping) (md_source_class_id mapping)
         (md_description mapping) (md_degree_of_similarity mapping));;
  mappings ← get_mapping system_id_source system_id_target;
  mret mappings.

Definition get_identifier_system (system_name system_version : string)
    : M LucClassificationSystem :=
  rows ← query systems;
  first_or_404
    (filter (λ s, cs_name s = system_name ∧ cs_version s = system_version) rows).

End readers_and_writers.

(** ** Further vocabulary *)

(** Every table has distinct primary keys. *)
Definition ids_distinct (w : DB) : Prop :=
  NoDup (cs_id <$> systems w)
  ∧ NoDup (lc_id <$> classes w)
  ∧ NoDup (cm_id <$> mappings w)
  ∧ NoDup (sf_id <$> style_formats w)
  ∧ NoDup (st_id <$> styles w).

(** The row that [create_classification_system] adds to a store. *)
Definition new_system (w : DB) (name authority_name version : string)
    (description : option string) : LucClassificationSystem :=
  mkSystem (fresh_id (cs_id <$> systems w)) name authority_name version description.

(** The row that [create_style_format] adds to a store. *)
Definition new_style_format (w : DB) (name : string) : StyleFormats :=
  mkStyleFormat (fresh_id (sf_id <$> style_formats w)) name.

(** A session in which [w] is both what is committed and what is seen. *)
Definition settled (w : DB) : Session := mkSession w w.

(** The class row that a descriptor turns into within a store. *)
Definition class_added (system_id : Z) (w : DB) (d : ClassDescriptor) : DB :=
  set_classes
    (λ t, t ++ [mkClass (fresh_id (lc_id <$> classes w)) (cd_name d) (cd_code d)
                        (cd_description d) system_id (cd_class_parent_id d)])
    w.

(** The store after the descriptors of a batch were added one by one. *)
Definition classes_added (system_id : Z) (w : DB) (batch : list ClassDescriptor) : DB :=
  foldl (class_added system_id) w batch.

(** Both class ids of the descriptor resolve within the declared systems. *)
Definition resolves (w : DB) (system_id_source system_id_target : Z)
    (d : MappingDescriptor) : Prop :=
  class_of_system w (md_source_class_id d) system_id_source
  ∧ class_of_system w (md_target_class_id d) system_id_target.

(** The mapping leads from a class of the one system to a class of the other. *)
Definition maps_between (w : DB) (system_id_source system_id_target : Z)
    (m : ClassMapping) : Prop :=
  class_of_system w (cm_source_class_id m) system_id_source
  ∧ class_of_system w (cm_target_class_id m) system_id_target.

(** The store after the mapping of a descriptor was added. *)
Definition mapping_stored (w : DB) (d : MappingDescriptor) : DB :=
  set_mappings
    (λ t, t ++ [mkMapping (fresh_id (cm_id <$> mappings w))
                          (md_source_class_id d) (md_target_class_id d)
                          (md_description d) (md_degree_of_similarity d)])
    w.

Definition mappings_stored (w : DB) (ds : list MappingDescriptor) : DB :=
  foldl mapping_stored w ds.

(** The session after [insert_mappings] went through the descriptors: each
    one was committed on its own, so without descriptors nothing happened. *)
Definition after_inserts (s : Session) (ds : list MappingDescriptor) : Session :=
  match ds with
  | [] => s
  | _ :: _ => settled (mappings_stored (working s) ds)
  end.

(** The mapping row carries what the descriptor says. *)
Definition carries (d : MappingDescriptor) (m : ClassMapping) : Prop :=
  cm_source_class_id m = md_source_class_id d
  ∧ cm_target_class_id m = md_target_class_id d
  ∧ cm_description m = md_description d
  ∧ cm_degree_of_similarity m = md_degree_of_similarity d.

(** Some mapping row has the pair of class ids. *)
Definition mapping_exists (w : DB) (source_class_id target_class_id : Z) : Prop :=
  ∃ m, m ∈ mappings w
       ∧ cm_source_class_id m = source_class_id
       ∧ cm_target_class_id m = target_class_id.

(** What [update_mapping] needs of a descriptor: both classes resolve and a
    mapping row for the pair is there. *)
Definition updatable (w : DB) (system_id_source system_id_target : Z)
    (d : MappingDescriptor) : Prop :=
  resolves w system_id_source system_id_target d
  ∧ mapping_exists w (md_source_class_id d) (md_target_class_id d).

(** The pairs of class ids of the mapping rows, in storage order. *)
Definition mapping_pairs (w : DB) : list (Z * Z) :=
  (λ m, (cm_source_class_id m, cm_target_class_id m)) <$> mappings w.

(** A style is stored for the pair of a system and a style format. *)
Definition style_stored (w : DB) (system_id style_format_id : Z) : Prop :=
  ∃ st, st ∈ styles w
        ∧ st_class_system_id st = system_id
        ∧ st_style_format_id st = style_format_id.

Definition system_exists (w : DB) (system_id : Z) : Prop :=
  ∃ r, r ∈ systems w ∧ cs_id r = system_id.

Definition style_format_exists (w : DB) (style_format_id : Z) : Prop :=
  ∃ f, f ∈ style_formats w ∧ sf_id f = style_format_id.

(** The row that [insert_file] adds to a store. *)
Definition new_style (w : DB) (system_id style_format_id : Z) (mime_type : string)
    (payload : list byte) : Styles :=
  mkStyle (fresh_id (st_id <$> styles w)) system_id style_format_id mime_type payload.

(** What a client gets back for a style row: its payload and MIME type. *)
Definition style_file_of (st : Styles) : list byte * string :=
  (st_style st, st_mime_type st).

(** The computation keeps the primary keys distinct, in what is committed
    and in what the transaction sees. *)
Definition keeps_ids {A} (m : M A) : Prop :=
  ∀ s, ids_distinct (committed s) → ids_distinct (working s) →
       ids_distinct (committed (m s).2) ∧ ids_distinct (working (m s).2).

(** The computation hands the session back as it got it. *)
Definition read_only {A} (m : M A) : Prop :=
  ∀ s, (m s).2 = s.

(** The class row carries what the descriptor says, within the system. *)
Definition describes (system_id : Z) (d : ClassDescriptor) (c : LucClass) : Prop :=
  lc_name c = cd_name d ∧ lc_code c = cd_code d
  ∧ lc_description c = cd_description d
  ∧ lc_class_parent_id c = cd_class_parent_id d
  ∧ lc_class_system_id c = system_id.


(** ** A sample store

    Two classification systems, IBGE 1.0 with the classes Forest and Water
    and PRODES 1.0 with the class Deforestation, and the style format QML;
    no mapping and no style yet. *)

Definition IBGE : LucClassificationSystem := mkSystem 1 "IBGE" "IBGE" "1.0" None.
Definition PRODES : LucClassificationSystem := mkSystem 2 "PRODES" "INPE" "1.0" None.

Definition Forest : LucClass := mkClass 1 "Forest" "F" None 1 None.
Definition Water : LucClass := mkClass 2 "Water" "W" None 1 None.
Definition Deforestation : LucClass := mkClass 3 "Deforestation" "D" None 2 None.

Definition QML : StyleFormats := mkStyleFormat 1 "QML".

Definition sample_db : DB :=
  mkDB [IBGE; PRODES] [Forest; Water; Deforestation] [] [QML] [].

Definition sample_session : Session := mkSession sample_db sample_db.

(** The sample store with one mapping, Forest to Deforestation, of degree 0.8. *)
Definition Forest_to_Deforestation : ClassMapping :=
  mkMapping 1 1 3 (Some "cleared forest") (Some (8 # 10)%Q).

Definition mapped_db : DB :=
  mkDB [IBGE; PRODES] [Forest; Water; Deforestation]
       [Forest_to_Deforestation] [QML] [].

Definition mapped_session : Session := mkSession mapped_db mapped_db.

(** A legend file as it is uploaded. *)
Definition legend_file : FileStorage :=
  mkFile "legend.sld" ["<"%byte; "a"%byte; "/"%byte; ">"%byte].

(** A resolver that only knows the extension of [legend_file]. *)
Definition sample_mimetype (name : string) : string :=
  if String.eqb name "legend.sld" then "application/xml" else "text/plain".

(** The sample store with a QML legend stored for IBGE. *)
Definition IBGE_legend : Styles :=
  mkStyle 1 1 1 "text/plain" ["o"%byte; "l"%byte; "d"%byte].

Definition styled_db : DB :=
  mkDB [IBGE; PRODES] [Forest; Water; Deforestation] [] [QML] [IBGE_legend].

Definition styled_session : Session := mkSession styled_db styled_db.

(** Descriptors for the sample store: two new classes of IBGE, a mapping
    from Forest to Deforestation, a mapping from Water to Deforestation, and
    a mapping whose source, Deforestation, is not a class of IBGE. *)
Definition Urban_descriptor : ClassDescriptor :=
  mkClassDescriptor "Urban" "U" None None.
Definition Crop_descriptor : ClassDescriptor :=
  mkClassDescriptor "Crop" "C" (Some "cultivated land") (Some 1).

Definition Forest_mapping : MappingDescriptor :=
  mkMappingDescriptor 3 1 (Some "burnt") (Some (5 # 10)%Q).
Definition Water_mapping : MappingDescriptor :=
  mkMappingDescriptor 3 2 None None.
Definition foreign_mapping : MappingDescriptor :=
  mkMappingDescriptor 3 3 None None.

(** ** Running the monad *)

Lemma bind_ok {A B} (m : M A) (f : A → M B) s a s' :
  m s = (Ok a, s') → (m ≫= f) s = f a s'.
Proof. intros H. unfold mbind, M_bind. by rewrite H. Qed.

Lemma bind_abort {A B} (m : M A) (f : A → M B) s e s' :
  m s = (Abort e, s') → (m ≫= f) s = (Abort e, s').
Proof. intros H. unfold mbind, M_bind. by rewrite H. Qed.

Lemma bind_query {A B} (table : DB → list A) (f : list A → M B) s :
  (query table ≫= f) s = f (table (working s)) s.
Proof. reflexivity. Qed.

Lemma session_eta s : mkSession (committed s) (working s) = s.
Proof. by destruct s. Qed.

(** ** Queries: when [first] finds a row *)

Section first_filter.
Context {A : Type} (P : A → Prop) `{∀ x, Decision (P x)}.

Lemma first_filter_is_None (l : list A) :
  is_None (first (filter P l)) = true ↔ ∀ x, x ∈ l → ¬ P x.
Proof.
  unfold first. split.
  - intros Hn x Hx HP.
    assert (Hin : x ∈ filter P l) by (apply list_elem_of_filter; done).
    destruct (filter P l); [by apply elem_of_nil in Hin | done].
  - intros Hall. destruct (filter P l) as [|y ys] eqn:E; [done|].
    assert (Hin : y ∈ filter P l) by (rewrite E; left).
    apply list_elem_of_filter in Hin as [HP Hy]. by destruct (Hall y Hy).
Qed.

Lemma first_filter_found (l : list A) x :
  x ∈ l → P x → is_None (first (filter P l)) = false.
Proof.
  intros Hx HP. destruct (is_None _) eqn:E; [|done].
  destruct (proj1 (first_filter_is_None l) E x Hx HP).
Qed.

Lemma filter_nil_iff (l : list A) :
  filter P l = [] ↔ ∀ x, x ∈ l → ¬ P x.
Proof.
  rewrite <- first_filter_is_None. unfold first.
  by destruct (filter P l).
Qed.

Lemma first_or_404_found (l : list A) x s :
  x ∈ l → P x → ∃ y, first_or_404 (filter P l) s = (Ok y, s) ∧ y ∈ l ∧ P y.
Proof.
  intros Hx HP. destruct (filter P l) as [|y ys] eqn:E.
  - destruct (proj1 (filter_nil_iff l) E x Hx HP).
  - exists y. split; [done|].
    assert (Hin : y ∈ filter P l) by (rewrite E; left).
    apply list_elem_of_filter in Hin. tauto.
Qed.

Lemma first_or_404_absent (l : list A) s :
  (∀ x, x ∈ l → ¬ P x) →
  first_or_404 (filter P l) s = (Abort (mkAbort NotFound not_found_description), s).
Proof. intros Hall. by rewrite (proj2 (filter_nil_iff l) Hall). Qed.

End first_filter.

(** ** Creation and the uniqueness checks *)

Lemma create_classification_system_duplicate s name authority_name version description r :
  r ∈ systems (working s) → cs_name r = name → cs_version r = version →
  create_classification_system name authority_name version description s
  = (Abort (mkAbort BadRequest "Classification System already registered!"), s).
Proof.
  intros Hr Hn Hv. unfold create_classification_system.
  rewrite bind_query. cbv zeta.
  by rewrite (first_filter_found _ _ r Hr (conj Hn Hv)).
Qed.

Lemma insert_class_duplicate s system_id name code description class_parent_id c :
  c ∈ classes (working s) → lc_class_system_id c = system_id → lc_name c = name →
  insert_class system_id name code description class_parent_id s
  = (Abort (mkAbort Conflict "Class already registered in the system!"), s).
Proof.
  intros Hc Hs Hn. unfold insert_class.
  rewrite bind_query. cbv zeta.
  by rewrite (first_filter_found _ _ c Hc (conj Hs Hn)).
Qed.

Lemma create_style_format_duplicate s name f :
  f ∈ style_formats (working s) → sf_name f = name →
  create_style_format name s
  = (Abort (mkAbort BadRequest
              ("Error to add new class style format " +:+ name +:+ " already exist")), s).
Proof.
  intros Hf Hn. unfold create_style_format.
  rewrite bind_query. cbv zeta.
  by rewrite (first_filter_found _ _ f Hf Hn).
Qed.

(** C1 (as amended).  A create that would break a uniqueness invariant is
    rejected by an abort and the session is left as it was, so no row is
    inserted.  The status code is 409 (Conflict) for a class whose name is
    taken within its system, and 400 (BadRequest) for a classification
    system whose (name, version) pair is taken and for a style format whose
    name is taken. *)
Theorem duplicate_create_rejected (s : Session) :
  (∀ name authority_name version description,
     (∃ r, r ∈ systems (working s) ∧ cs_name r = name ∧ cs_version r = version) →
     let out := create_classification_system name authority_name version description s in
     signals out.1 BadRequest ∧ out.2 = s)
  ∧ (∀ system_id name code description class_parent_id,
       (∃ c, c ∈ classes (working s)
             ∧ lc_class_system_id c = system_id ∧ lc_name c = name) →
       let out := insert_class system_id name code description class_parent_id s in
       signals out.1 Conflict ∧ out.2 = s)
  ∧ (∀ name,
       (∃ f, f ∈ style_formats (working s) ∧ sf_name f = name) →
       let out := create_style_format name s in
       signals out.1 BadRequest ∧ out.2 = s).
Proof.
  split; [|split].
  - intros name authority_name version description (r & Hr & Hn & Hv) out.
    subst out. by erewrite create_classification_system_duplicate.
  - intros system_id name code description class_parent_id (c & Hc & Hs & Hn) out.
    subst out. by erewrite insert_class_duplicate.
  - intros name (f & Hf & Hn) out.
    subst out. by erewrite create_style_format_duplicate.
Qed.

(** ** Bulk insertion of classes *)

Lemma insert_class_fresh s system_id name code description class_parent_id :
  (∀ c, c ∈ classes (working s) →
        ¬ (lc_class_system_id c = system_id ∧ lc_name c = name)) →
  insert_class system_id name code description class_parent_id s
  = (Ok tt,
     mkSession (committed s)
       (set_classes
          (λ t, t ++ [mkClass (fresh_id (lc_id <$> classes (working s)))
                              name code description system_id class_parent_id])
          (working s))).
Proof.
  intros Hfresh. unfold insert_class. rewrite bind_query. cbv zeta.
  by rewrite (proj2 (first_filter_is_None _ _) Hfresh).
Qed.

Lemma for_each_insert_class_aborts system_id batch :
  ∀ s d, d ∈ batch → name_taken (working s) system_id (cd_name d) →
  ∃ s', for_each batch
          (λ d, insert_class system_id (cd_name d) (cd_code d)
                             (cd_description d) (cd_class_parent_id d)) s
        = (Abort (mkAbort Conflict "Class already registered in the system!"), s')
        ∧ committed s' = committed s.
Proof.
  induction batch as [|a rest IH]; intros s d Hd Htaken.
  - by apply elem_of_nil in Hd.
  - cbn [for_each].
    destruct (is_None (first (filter
                (λ c, lc_class_system_id c = system_id ∧ lc_name c = cd_name a)
                (classes (working s))))) eqn:E.
    + (* the head is new: it is added, and the clash comes later *)
      pose proof (proj1 (first_filter_is_None _ _) E) as Hfresh.
      erewrite bind_ok; [|by apply insert_class_fresh].
      apply elem_of_cons in Hd as [->|Hd].
      { destruct Htaken as (c & Hc & Hs & Hn). by destruct (Hfresh c Hc). }
      destruct (IH (mkSession (committed s)
                      (set_classes
                         (λ t, t ++ [mkClass (fresh_id (lc_id <$> classes (working s)))
                                       (cd_name a) (cd_code a) (cd_description a)
                                       system_id (cd_class_parent_id a)])
                         (working s))) d Hd) as (s' & Hrun & Hcommitted).
      { destruct Htaken as (c & Hc & Hs & Hn). exists c. split; [|done].
        cbn. apply elem_of_app. by left. }
      exists s'. by split.
    + (* the head itself clashes *)
      assert (Hdup : name_taken (working s) system_id (cd_name a)).
      { destruct (filter _ (classes (working s))) as [|c cs] eqn:F; [done|].
        assert (Hin : c ∈ filter
                  (λ c, lc_class_system_id c = system_id ∧ lc_name c = cd_name a)
                  (classes (working s))) by (rewrite F; left).
        apply list_elem_of_filter in Hin as [[Hs Hn] Hc]. by exists c. }
      destruct Hdup as (c & Hc & Hs & Hn).
      exists s. split; [|done].
      erewrite bind_abort; [done|].
      by eapply insert_class_duplicate.
Qed.

Lemma insert_classes_unknown_system s system_id batch :
  (∀ r, r ∈ systems (working s) → cs_id r ≠ system_id) →
  insert_classes system_id batch s
  = (Abort (mkAbort NotFound not_found_description), s).
Proof.
  intros Habsent. unfold insert_classes.
  erewrite bind_abort; [done|].
  unfold classification_system. rewrite bind_query.
  by apply first_or_404_absent.
Qed.

(** C3.  When some descriptor of the batch carries a name that is already
    used in the target system, [insert_classes] aborts and the session is
    exactly the one before the call: the rows added ahead of the clash are
    rolled back with the savepoint and nothing is committed.  When the
    system exists the abort is the Conflict of [insert_class]. *)
Theorem insert_classes_duplicate_rolls_back s system_id batch d :
  d ∈ batch →
  name_taken (working s) system_id (cd_name d) →
  ∃ e, insert_classes system_id batch s = (Abort e, s)
       ∧ ((∃ r, r ∈ systems (working s) ∧ cs_id r = system_id) →
          code e = Conflict).
Proof.
  intros Hd Htaken. unfold insert_classes.
  destruct (filter (λ r, cs_id r = system_id) (systems (working s)))
    as [|sys others] eqn:F.
  - exists (mkAbort NotFound not_found_description). split.
    + erewrite bind_abort; [done|].
      unfold classification_system. rewrite bind_query. by rewrite F.
    + intros (r & Hr & Hid).
      by destruct (proj1 (filter_nil_iff _ _) F r Hr).
  - exists (mkAbort Conflict "Class already registered in the system!").
    split; [|done].
    erewrite bind_ok;
      [|unfold classification_system; rewrite bind_query; by rewrite F].
    cbn [is_None].
    destruct (for_each_insert_class_aborts system_id batch s d Hd Htaken)
      as (s' & Hrun & Hcommitted).
    erewrite bind_abort; [done|].
    unfold begin_nested. rewrite Hrun, Hcommitted. by rewrite session_eta.
Qed.

(** ** Which systems can be reached from a source system *)

Lemma elem_of_class_ids (w : DB) class_id system_id :
  class_id ∈ lc_id <$> filter (λ c, lc_class_system_id c = system_id) (classes w)
  ↔ class_of_system w class_id system_id.
Proof.
  rewrite list_elem_of_fmap. unfold class_of_system. split.
  - intros (c & -> & Hc). apply list_elem_of_filter in Hc as [Hs Hc]. by exists c.
  - intros (c & Hc & Hid & Hs). exists c. split; [done|].
    by apply list_elem_of_filter.
Qed.

(** C5.  [get_mappings] only reads.  Its result has no duplicates, and an
    id is in it exactly when it is the id of a classification system that
    owns a class which is the target of a mapping row whose source class
    belongs to the source system. *)
Theorem get_mappings_exact (s : Session) (system_id_source : Z) :
  ∃ l, get_mappings system_id_source s = (Ok l, s)
       ∧ NoDup l
       ∧ ∀ system_id,
           system_id ∈ l ↔
           ∃ sys c m,
             sys ∈ systems (working s) ∧ cs_id sys = system_id
             ∧ c ∈ classes (working s) ∧ lc_class_system_id c = system_id
             ∧ m ∈ mappings (working s) ∧ cm_target_class_id m = lc_id c
             ∧ class_of_system (working s) (cm_source_class_id m) system_id_source.
Proof.
  eexists. split.
  { unfold get_mappings. rewrite !bind_query. cbv zeta. reflexivity. }
  split; [apply NoDup_remove_dups|].
  intros system_id. unfold distinct, join.
  rewrite elem_of_remove_dups, list_elem_of_fmap. split.
  - intros ([sys c] & -> & Hp).
    apply list_elem_of_filter in Hp as [Htarget Hp].
    apply list_elem_of_filter in Hp as [Hon Hp].
    apply list_elem_of_cprod in Hp as [Hsys Hc]. cbn in *.
    apply elem_of_remove_dups, list_elem_of_fmap in Htarget as (m & Hm & Hin).
    apply list_elem_of_filter in Hin as [Hsrc Hin].
    apply elem_of_class_ids in Hsrc.
    exists sys, c, m. by repeat split.
  - intros (sys & c & m & Hsys & Hid & Hc & Hown & Hm & Htgt & Hsrc).
    exists (sys, c). split; [done|].
    apply list_elem_of_filter. split.
    + cbn. apply elem_of_remove_dups, list_elem_of_fmap.
      exists m. split; [done|].
      apply list_elem_of_filter. split; [|done].
      by apply elem_of_class_ids.
    + apply list_elem_of_filter. split; [cbn; congruence|].
      by apply list_elem_of_cprod.
Qed.

(** ** Inserting a mapping *)

Lemma class_lookup_nil (w : DB) class_id system_id :
  filter (λ c, lc_id c = class_id ∧ lc_class_system_id c = system_id) (classes w) = []
  ↔ ¬ class_of_system w class_id system_id.
Proof.
  rewrite filter_nil_iff. unfold class_of_system. split.
  - intros Hall (c & Hc & Hid & Hs). by destruct (Hall c Hc).
  - intros Hnone c Hc [Hid Hs]. apply Hnone. by exists c.
Qed.

Lemma class_lookup_cons (w : DB) class_id system_id c cs :
  filter (λ c, lc_id c = class_id ∧ lc_class_system_id c = system_id) (classes w)
  = c :: cs →
  class_of_system w class_id system_id.
Proof.
  intros F.
  assert (Hin : c ∈ filter (λ c, lc_id c = class_id ∧ lc_class_system_id c = system_id)
                      (classes w)) by (rewrite F; left).
  apply list_elem_of_filter in Hin as [[Hid Hs] Hc]. by exists c.
Qed.

Lemma insert_mapping_cases s src tgt tc sc d deg :
  (¬ class_of_system (working s) sc src
   ∧ insert_mapping src tgt tc sc d deg s
     = (Abort (mkAbort NotFound not_found_description), s))
  ∨ (class_of_system (working s) sc src ∧ ¬ class_of_system (working s) tc tgt
     ∧ insert_mapping src tgt tc sc d deg s
       = (Abort (mkAbort NotFound not_found_description), s))
  ∨ (class_of_system (working s) sc src ∧ class_of_system (working s) tc tgt
     ∧ insert_mapping src tgt tc sc d deg s = (Ok tt, mapping_added s sc tc d deg)).
Proof.
  unfold insert_mapping. rewrite bind_query.
  destruct (filter (λ c, lc_id c = sc ∧ lc_class_system_id c = src)
              (classes (working s))) as [|c1 cs1] eqn:F1.
  { left. split; [by apply class_lookup_nil|done]. }
  right. apply class_lookup_cons in F1.
  erewrite bind_ok; [|reflexivity]. rewrite bind_query.
  destruct (filter (λ c, lc_id c = tc ∧ lc_class_system_id c = tgt)
              (classes (working s))) as [|c2 cs2] eqn:F2.
  { left. split; [done|]. split; [by apply class_lookup_nil|done]. }
  right. apply class_lookup_cons in F2. done.
Qed.

(** C6.  [insert_mapping] signals NotFound exactly when the source class id
    does not resolve within the declared source system or the target class
    id does not resolve within the declared target system.  Otherwise it
    adds the row without looking at the rows already there, so a second
    call for the same pair adds a second row. *)
Theorem insert_mapping_not_found_iff s src tgt tc sc d deg :
  (signals (insert_mapping src tgt tc sc d deg s).1 NotFound
   ↔ ¬ class_of_system (working s) sc src ∨ ¬ class_of_system (working s) tc tgt)
  ∧ (class_of_system (working s) sc src → class_of_system (working s) tc tgt →
     insert_mapping src tgt tc sc d deg s = (Ok tt, mapping_added s sc tc d deg))
  ∧ (class_of_system (working s) sc src → class_of_system (working s) tc tgt →
     ∀ d' deg', ∃ s2,
       (insert_mapping src tgt tc sc d deg ;;
        insert_mapping src tgt tc sc d' deg') s = (Ok tt, s2)
       ∧ length (filter (λ m, cm_source_class_id m = sc ∧ cm_target_class_id m = tc)
                        (mappings (working s2)))
         = (2 + length (filter (λ m, cm_source_class_id m = sc
                                     ∧ cm_target_class_id m = tc)
                               (mappings (working s))))%nat).
Proof.
  assert (Hok : ∀ s0 d0 deg0,
            class_of_system (working s0) sc src →
            class_of_system (working s0) tc tgt →
            insert_mapping src tgt tc sc d0 deg0 s0
            = (Ok tt, mapping_added s0 sc tc d0 deg0)).
  { intros s0 d0 deg0 Hsrc Htgt.
    destruct (insert_mapping_cases s0 src tgt tc sc d0 deg0)
      as [[Hn _]|[(_ & Hn & _)|(_ & _ & Hrun)]]; done. }
  split; [|split].
  - destruct (insert_mapping_cases s src tgt tc sc d deg)
      as [[Hn Hrun]|[(Hsrc & Hn & Hrun)|(Hsrc & Htgt & Hrun)]]; rewrite Hrun; cbn.
    + split; [by left|done].
    + split; [by right|done].
    + split; [done|]. intros [Hn|Hn]; by destruct Hn.
  - apply Hok.
  - intros Hsrc Htgt d' deg'. eexists. split.
    + erewrite bind_ok; [|by apply Hok]. by apply Hok.
    + cbn. rewrite !filter_app, !length_app.
      rewrite !filter_cons_True by done. cbn. lia.
Qed.

(** ** Updating a mapping *)

Section rows_by_key.
Context {A : Type} (key : A → Z).

Lemma update_row_insert (t : list A) i old new :
  NoDup (key <$> t) → t !! i = Some old → key new = key old →
  update_row key new t = <[i := new]> t.
Proof.
  intros Hnd Hi Hkey. apply list_eq. intros j.
  unfold update_row. rewrite list_lookup_fmap.
  destruct (decide (i = j)) as [<-|Hne].
  - rewrite list_lookup_insert_eq by (by eapply lookup_lt_Some).
    rewrite Hi. cbn. by rewrite decide_True.
  - rewrite list_lookup_insert_ne by done.
    destruct (t !! j) as [r|] eqn:Hj; [|done]. cbn.
    rewrite decide_False; [done|].
    intros Hr. apply Hne.
    apply (NoDup_lookup (key <$> t) i j (key old)); [done| |].
    + by rewrite list_lookup_fmap, Hi.
    + rewrite list_lookup_fmap, Hj. cbn. congruence.
Qed.

Lemma update_row_twice (t : list A) first_change second_change :
  key first_change = key second_change →
  update_row key second_change (update_row key first_change t)
  = update_row key second_change t.
Proof.
  intros Hkey. unfold update_row. rewrite <- list_fmap_compose.
  apply list_fmap_ext. intros _ r _. cbn.
  destruct (decide (key r = key first_change)) as [Hr|Hr].
  - rewrite !decide_True; congruence.
  - done.
Qed.

End rows_by_key.

Lemma truthy_num_zero q : (q == 0)%Q → truthy_num (Some q) = false.
Proof.
  unfold Qeq. cbn. intros Hq.
  assert (Qnum q = 0) as -> by lia. done.
Qed.

Lemma update_mapping_run s src tgt tc sc d deg m :
  NoDup (cm_id <$> mappings (working s)) →
  class_of_system (working s) sc src →
  class_of_system (working s) tc tgt →
  first (filter (λ r, cm_source_class_id r = sc ∧ cm_target_class_id r = tc)
                (mappings (working s))) = Some m →
  ∃ i, mappings (working s) !! i = Some m
       ∧ update_mapping src tgt tc sc d deg s
         = (Ok tt, mapping_updated s i m d deg).
Proof.
  intros Hnd (c1 & Hc1 & Hid1 & Hs1) (c2 & Hc2 & Hid2 & Hs2) Hfirst.
  unfold first in Hfirst.
  destruct (filter _ (mappings (working s))) as [|m0 rest] eqn:F; [done|].
  injection Hfirst as ->.
  assert (Hm : m ∈ mappings (working s)).
  { assert (Hin : m ∈ filter
              (λ r, cm_source_class_id r = sc ∧ cm_target_class_id r = tc)
              (mappings (working s))) by (rewrite F; left).
    by apply list_elem_of_filter in Hin as [_ ?]. }
  apply list_elem_of_lookup_1 in Hm as [i Hi].
  exists i. split; [done|].
  unfold update_mapping. rewrite bind_query.
  destruct (first_or_404_found
              (λ c, lc_id c = sc ∧ lc_class_system_id c = src)
              (classes (working s)) c1 s Hc1 (conj Hid1 Hs1)) as (y1 & Hy1 & _).
  erewrite bind_ok; [|exact Hy1]. rewrite bind_query.
  destruct (first_or_404_found
              (λ c, lc_id c = tc ∧ lc_class_system_id c = tgt)
              (classes (working s)) c2 s Hc2 (conj Hid2 Hs2)) as (y2 & Hy2 & _).
  erewrite bind_ok; [|exact Hy2]. rewrite bind_query, F.
  erewrite bind_ok; [|reflexivity].
  unfold mapping_updated, changed_mapping.
  destruct (truthy_str d), (truthy_num deg);
    cbv [begin_nested setattr_mapping modify commit mbind M_bind mret M_ret];
    cbn; unfold set_mappings; cbn.
  - rewrite update_row_twice by done.
    by erewrite update_row_insert.
  - by erewrite update_row_insert.
  - by erewrite update_row_insert.
  - rewrite list_insert_id by (by destruct m).
    by destruct (working s).
Qed.

Lemma changed_mapping_falsy m d deg :
  truthy_str d = false → truthy_num deg = false → changed_mapping m d deg = m.
Proof. unfold changed_mapping. intros -> ->. by destruct m. Qed.

Lemma mapping_updated_falsy s i m d deg :
  mappings (working s) !! i = Some m →
  truthy_str d = false → truthy_num deg = false →
  mapping_updated s i m d deg = mkSession (working s) (working s).
Proof.
  intros Hi Hd Hdeg. unfold mapping_updated, set_mappings. cbn.
  rewrite changed_mapping_falsy, list_insert_id by done.
  by destruct (working s).
Qed.

(** C7.  Let [m] be the mapping that [update_mapping] locates by the pair
    (source_class_id, target_class_id), in a table whose identifiers are
    distinct.  The call succeeds and replaces [m], at its place in the table,
    by [changed_mapping m description degree_of_similarity]; all other rows
    and tables are as before, and the result is committed.  The identifier
    and the two class ids of the row are never changed; a falsy description
    ([None] or the empty string) leaves the stored description, a falsy
    degree ([None] or zero) leaves the stored degree; and with a zero degree
    and a falsy description the rows of the store do not change at all. *)
Theorem update_mapping_falsy_skip s src tgt tc sc d deg m :
  NoDup (cm_id <$> mappings (working s)) →
  class_of_system (working s) sc src →
  class_of_system (working s) tc tgt →
  first (filter (λ r, cm_source_class_id r = sc ∧ cm_target_class_id r = tc)
                (mappings (working s))) = Some m →
  (∃ i, mappings (working s) !! i = Some m
        ∧ update_mapping src tgt tc sc d deg s
          = (Ok tt, mapping_updated s i m d deg))
  ∧ (cm_id (changed_mapping m d deg) = cm_id m
     ∧ cm_source_class_id (changed_mapping m d deg) = cm_source_class_id m
     ∧ cm_target_class_id (changed_mapping m d deg) = cm_target_class_id m)
  ∧ (truthy_str d = false →
     cm_description (changed_mapping m d deg) = cm_description m)
  ∧ (truthy_num deg = false →
     cm_degree_of_similarity (changed_mapping m d deg) = cm_degree_of_similarity m)
  ∧ (∀ d0 q, d0 = None ∨ d0 = Some "" → (q == 0)%Q →
       update_mapping src tgt tc sc d0 (Some q) s
       = (Ok tt, mkSession (working s) (working s))).
Proof.
  intros Hnd Hsrc Htgt Hm. repeat split.
  - by apply update_mapping_run.
  - intros Hd. unfold changed_mapping. cbn. by rewrite Hd.
  - intros Hdeg. unfold changed_mapping. cbn. by rewrite Hdeg.
  - intros d0 q Hd0 Hq.
    destruct (update_mapping_run s src tgt tc sc d0 (Some q) m Hnd Hsrc Htgt Hm)
      as (i & Hi & Hrun).
    rewrite Hrun. f_equal.
    apply mapping_updated_falsy; [done| |by apply truthy_num_zero].
    by destruct Hd0 as [->| ->].
Qed.

(** ** Storing a style file and reading it back *)

Lemma first_filter_all {A} (P Q : A → Prop) `{∀ x, Decision (P x)} (l : list A) x :
  x ∈ l → P x → (∀ y, y ∈ l → P y → Q y) →
  ∃ y, first (filter P l) = Some y ∧ Q y.
Proof.
  intros Hx HP HQ. unfold first.
  destruct (filter P l) as [|y ys] eqn:F.
  - destruct (proj1 (filter_nil_iff P l) F x Hx HP).
  - exists y. split; [done|].
    assert (Hin : y ∈ filter P l) by (rewrite F; left).
    apply list_elem_of_filter in Hin as [HPy Hy]. by apply HQ.
Qed.

(** C8.  For an existing classification system and an existing style
    format with no style stored yet for the pair, [insert_file] succeeds,
    and [get_classification_system_style] on the same pair then returns the
    bytes read from the file together with the MIME type that
    [get_mimetype] gives for the file's name. *)
Theorem insert_file_round_trip (get_mimetype : string → string)
    s system_id style_format_id file :
  (∃ r, r ∈ systems (working s) ∧ cs_id r = system_id) →
  (∃ f, f ∈ style_formats (working s) ∧ sf_id f = style_format_id) →
  (∀ st, st ∈ styles (working s) →
         ¬ (st_class_system_id st = system_id
            ∧ st_style_format_id st = style_format_id)) →
  ∃ style s1,
    insert_file get_mimetype style_format_id system_id file s = (Ok style, s1)
    ∧ st_style style = read file
    ∧ st_mime_type style = get_mimetype (filename file)
    ∧ get_classification_system_style system_id style_format_id s1
      = (Ok (Some (read file, get_mimetype (filename file))), s1).
Proof.
  intros (r & Hr & Hrid) (f & Hf & Hfid) Hnone.
  set (row := mkStyle (fresh_id (st_id <$> styles (working s))) system_id
                style_format_id (get_mimetype (filename file)) (read file)).
  set (w1 := set_styles (λ t, t ++ [row]) (working s)).
  exists row, (mkSession w1 w1). split; [|split; [done|split; [done|]]].
  - unfold insert_file.
    destruct (first_or_404_found (λ r, cs_id r = system_id)
                (systems (working s)) r s Hr Hrid) as (y1 & Hy1 & _).
    erewrite bind_ok;
      [|unfold classification_system; rewrite bind_query; exact Hy1].
    rewrite bind_query.
    destruct (first_or_404_found (λ f, sf_id f = style_format_id)
                (style_formats (working s)) f s Hf Hfid) as (y2 & Hy2 & _).
    erewrite bind_ok; [|exact Hy2]. reflexivity.
  - unfold get_classification_system_style. rewrite !bind_query. cbv zeta.
    destruct (first_filter_all
                (λ p : Styles * StyleFormats,
                   st_class_system_id p.1 = system_id
                   ∧ st_style_format_id p.1 = style_format_id)
                (λ p, p.1 = row)
                (join (styles w1) (style_formats w1)
                      (λ p, sf_id p.2 = st_style_format_id p.1))
                (row, f)) as (y & Hy & Hrow).
    + unfold join. apply list_elem_of_filter. split; [done|].
      apply list_elem_of_cprod. split; cbn; [|done].
      apply elem_of_app. right. left.
    + done.
    + intros [st f'] Hin [Hsys Hfmt]. cbn in *.
      apply list_elem_of_filter in Hin as [_ Hin].
      apply list_elem_of_cprod in Hin as [Hst _]. cbn in Hst.
      apply elem_of_app in Hst as [Hold|Hnew].
      * by destruct (Hnone st Hold).
      * by apply list_elem_of_singleton in Hnew.
    + cbn [working]. rewrite Hy. cbn. by rewrite Hrow.
Qed.

(** ** Deleting rows in a loop *)

Section delete_loop.
Context {A : Type} (key : A → Z).

Lemma filter_ext_in (P Q : A → Prop) `{∀ x, Decision (P x)} `{∀ x, Decision (Q x)}
    (l : list A) :
  (∀ x, x ∈ l → (P x ↔ Q x)) → filter P l = filter Q l.
Proof.
  induction l as [|a l IH]; intros Hext; [done|].
  assert (Ha : P a ↔ Q a) by (apply Hext; left).
  assert (Hl : filter P l = filter Q l).
  { apply IH. intros x Hx. apply Hext. by right. }
  destruct (decide (P a)) as [HP|HP].
  - rewrite !filter_cons_True by tauto. by rewrite Hl.
  - rewrite !filter_cons_False by tauto. done.
Qed.

Lemma delete_row_skip (objs : list A) (obj : A) (t : list A) :
  filter (λ r, key r ∉ key <$> objs) (delete_row key obj t)
  = filter (λ r, key r ∉ key <$> obj :: objs) t.
Proof.
  unfold delete_row. rewrite list_filter_filter.
  apply list_filter_iff. intros r. rewrite fmap_cons, not_elem_of_cons. tauto.
Qed.

Lemma filter_no_keys (t : list A) : filter (λ r, key r ∉ key <$> []) t = t.
Proof.
  induction t as [|a t IH]; [done|].
  rewrite filter_cons_True; [by rewrite IH|]. cbn. apply not_elem_of_nil.
Qed.

Lemma same_key_same_row (t : list A) x y :
  NoDup (key <$> t) → x ∈ t → y ∈ t → key x = key y → x = y.
Proof.
  intros Hnd Hx Hy Hkey.
  apply list_elem_of_lookup_1 in Hx as [i Hi].
  apply list_elem_of_lookup_1 in Hy as [j Hj].
  assert (i = j) as ->.
  { apply (NoDup_lookup (key <$> t) i j (key x)); [done| |].
    - by rewrite list_lookup_fmap, Hi.
    - rewrite list_lookup_fmap, Hj. cbn. congruence. }
  congruence.
Qed.

Lemma filter_selected_keys (P : A → Prop) `{∀ x, Decision (P x)} (t : list A) :
  NoDup (key <$> t) →
  filter (λ r, key r ∉ key <$> filter P t) t = filter (λ r, ¬ P r) t.
Proof.
  intros Hnd. apply filter_ext_in. intros r Hr. split.
  - intros Hnot HP. apply Hnot. apply list_elem_of_fmap.
    exists r. split; [done|]. by apply list_elem_of_filter.
  - intros HnP Hin. apply list_elem_of_fmap in Hin as (r' & Hkey & Hr').
    apply list_elem_of_filter in Hr' as [HP Hr'].
    by rewrite (same_key_same_row t r r' Hnd Hr Hr' Hkey) in HnP.
Qed.

End delete_loop.

Lemma for_each_delete_classes (l : list LucClass) :
  ∀ s, for_each l (λ c, modify (set_classes (delete_row lc_id c))) s
       = (Ok tt,
          mkSession (committed s)
            (set_classes (filter (λ r, lc_id r ∉ lc_id <$> l)) (working s))).
Proof.
  induction l as [|c l IH]; intros s.
  - cbn. unfold set_classes. rewrite filter_no_keys.
    destruct s as [cm w]. by destruct w.
  - cbn [for_each]. erewrite bind_ok; [|reflexivity].
    rewrite IH. cbn. unfold set_classes. cbn.
    by rewrite delete_row_skip.
Qed.

Lemma for_each_delete_mappings (l : list ClassMapping) :
  ∀ s, for_each l (λ m, modify (set_mappings (delete_row cm_id m))) s
       = (Ok tt,
          mkSession (committed s)
            (set_mappings (filter (λ r, cm_id r ∉ cm_id <$> l)) (working s))).
Proof.
  induction l as [|m l IH]; intros s.
  - cbn. unfold set_mappings. rewrite filter_no_keys.
    destruct s as [cm w]. by destruct w.
  - cbn [for_each]. erewrite bind_ok; [|reflexivity].
    rewrite IH. cbn. unfold set_mappings. cbn.
    by rewrite delete_row_skip.
Qed.

(** C9.  On a class table whose identifiers are distinct, [delete_classes]
    succeeds and commits a store in which the class table is the old one
    without the rows whose class_system_id is the id of the given system:
    every class of that system is gone, the classes of all other systems
    are kept as they were and in their order, and no other table changes. *)
Theorem delete_classes_removes_exactly s (class_system : LucClassificationSystem) :
  NoDup (lc_id <$> classes (working s)) →
  let w := set_classes
             (filter (λ c, lc_class_system_id c ≠ cs_id class_system))
             (working s) in
  delete_classes class_system s = (Ok tt, mkSession w w)
  ∧ (∀ c, c ∈ classes w
          ↔ c ∈ classes (working s) ∧ lc_class_system_id c ≠ cs_id class_system).
Proof.
  intros Hnd w. split.
  - unfold delete_classes, LucClass_filter.
    erewrite bind_ok; [|rewrite bind_query; reflexivity].
    erewrite bind_ok;
      [|unfold begin_nested; by rewrite for_each_delete_classes].
    cbn. unfold w, set_classes. cbn.
    by rewrite (filter_selected_keys lc_id _ _ Hnd).
  - intros c. unfold w. cbn. rewrite list_elem_of_filter. tauto.
Qed.

(** ** Deleting the mappings between two systems *)

Lemma delete_mappings_run s src tgt :
  ∃ resolved,
    get_system_mapping src tgt s = (Ok resolved, s)
    ∧ delete_mappings src tgt s
      = (Ok tt,
         let w := set_mappings (filter (λ r, cm_id r ∉ cm_id <$> resolved))
                               (working s) in
         mkSession w w).
Proof.
  eexists. split.
  { unfold get_system_mapping. rewrite !bind_query. reflexivity. }
  unfold delete_mappings.
  erewrite bind_ok;
    [|unfold get_system_mapping; rewrite !bind_query; reflexivity].
  cbn [is_None].
  erewrite bind_ok;
    [|unfold begin_nested; by rewrite for_each_delete_mappings].
  reflexivity.
Qed.

(** [delete_mappings] has no run that ends in an abort. *)
Lemma delete_mappings_never_aborts s src tgt :
  (delete_mappings src tgt s).1 = Ok tt.
Proof.
  destruct (delete_mappings_run s src tgt) as (resolved & _ & Hrun).
  by rewrite Hrun.
Qed.

(** C2.  On the sample store there is no mapping between IBGE and PRODES:
    [get_system_mapping] resolves the empty list.  [delete_mappings] on the
    pair does not signal BadRequest; it returns normally, and the session
    it leaves is the one it found. *)
Theorem delete_mappings_empty_returns :
  get_system_mapping 1 2 sample_session = (Ok [], sample_session)
  ∧ delete_mappings 1 2 sample_session = (Ok tt, sample_session)
  ∧ ¬ signals (delete_mappings 1 2 sample_session).1 BadRequest.
Proof. split; [reflexivity|]. split; [reflexivity|]. cbn. tauto. Qed.

(** C4.  The sample store has no classification system with id 9.
    [insert_classes] for that id inserts nothing, and the abort it signals
    is the NotFound of [classification_system], not BadRequest. *)
Theorem insert_classes_unknown_system_not_found :
  insert_classes 9 [mkClassDescriptor "Urban" "U" None None] sample_session
  = (Abort (mkAbort NotFound not_found_description), sample_session)
  ∧ ¬ signals
        (insert_classes 9 [mkClassDescriptor "Urban" "U" None None]
                        sample_session).1
        BadRequest.
Proof.
  assert (Hrun : insert_classes 9 [mkClassDescriptor "Urban" "U" None None]
                   sample_session
                 = (Abort (mkAbort NotFound not_found_description), sample_session)).
  { apply insert_classes_unknown_system. intros r Hr.
    cbn in Hr. repeat (apply elem_of_cons in Hr as [->|Hr]; [by cbn|]).
    by apply elem_of_nil in Hr. }
  split; [done|]. rewrite Hrun. cbn. unfold NotFound, BadRequest. lia.
Qed.

(** ** Looking up a style format that is not there *)

(** C10.  When no style format has the given id, [get_style_format] does
    not abort: it returns the dump of [None] and leaves the session alone.
    For the same id [update_style_format] and [delete_style_format] signal
    NotFound, as [get_identifier_style_format] does for a name that no
    style format has. *)
Theorem get_style_format_absent_dumps_None
    (Serialized : Type) (StyleFormatsSchema_dump : option StyleFormats → Serialized)
    s style_format_id :
  (∀ f, f ∈ style_formats (working s) → sf_id f ≠ style_format_id) →
  get_style_format Serialized StyleFormatsSchema_dump style_format_id s
  = (Ok (StyleFormatsSchema_dump None), s)
  ∧ (∀ name, signals (update_style_format style_format_id name s).1 NotFound)
  ∧ signals (delete_style_format style_format_id s).1 NotFound
  ∧ (∀ name, (∀ f, f ∈ style_formats (working s) → sf_name f ≠ name) →
             signals (get_identifier_style_format name s).1 NotFound).
Proof.
  intros Habsent.
  assert (F : filter (λ f, sf_id f = style_format_id) (style_formats (working s)) = []).
  { by apply filter_nil_iff. }
  split; [|split; [|split]].
  - unfold get_style_format. rewrite bind_query. cbv zeta. by rewrite F.
  - intros name. unfold update_style_format. rewrite bind_query.
    erewrite bind_abort; [|by rewrite F]. done.
  - unfold delete_style_format. rewrite bind_query.
    erewrite bind_abort; [|by rewrite F]. done.
  - intros name Hname. unfold get_identifier_style_format. rewrite bind_query.
    by rewrite (first_or_404_absent _ _ s Hname).
Qed.

(** ** The statements on the sample store *)

(** On the sample store a second IBGE 1.0 and a second QML are answered
    with status 400, which is not the Conflict status. *)
Lemma duplicate_system_and_format_signal_400 :
  (∃ r, r ∈ systems (working sample_session)
        ∧ cs_name r = "IBGE" ∧ cs_version r = "1.0")
  ∧ (create_classification_system "IBGE" "INPE" "1.0" None sample_session).1
    = Abort (mkAbort 400 "Classification System already registered!")
  ∧ ¬ signals (create_classification_system "IBGE" "INPE" "1.0" None
                 sample_session).1 Conflict
  ∧ (∃ f, f ∈ style_formats (working sample_session) ∧ sf_name f = "QML")
  ∧ ¬ signals (create_style_format "QML" sample_session).1 Conflict.
Proof.
  split; [exists IBGE; repeat split; left|].
  split; [reflexivity|].
  split; [intros Hc; by vm_compute in Hc|].
  split; [exists QML; repeat split; left|].
  intros Hc. by vm_compute in Hc.
Qed.

Lemma duplicate_create_rejected_sample :
  (signals (create_classification_system "IBGE" "INPE" "1.0" None
              sample_session).1 BadRequest
   ∧ (create_classification_system "IBGE" "INPE" "1.0" None sample_session).2
     = sample_session)
  ∧ (signals (insert_class 1 "Water" "H2O" None None sample_session).1 Conflict
     ∧ (insert_class 1 "Water" "H2O" None None sample_session).2 = sample_session)
  ∧ (signals (create_style_format "QML" sample_session).1 BadRequest
     ∧ (create_style_format "QML" sample_session).2 = sample_session).
Proof.
  destruct (duplicate_create_rejected sample_session) as (Hsys & Hcls & Hfmt).
  split; [|split].
  - apply Hsys. exists IBGE. repeat split. left.
  - apply Hcls. exists Water. repeat split. right. left.
  - apply Hfmt. exists QML. repeat split. left.
Defined.

Lemma insert_classes_duplicate_rolls_back_sample :
  ∃ e, insert_classes 1 [mkClassDescriptor "Urban" "U" None None;
                         mkClassDescriptor "Water" "H2O" None None]
                      sample_session
       = (Abort e, sample_session)
       ∧ ((∃ r, r ∈ systems (working sample_session) ∧ cs_id r = 1) →
          code e = Conflict).
Proof.
  apply (insert_classes_duplicate_rolls_back sample_session 1 _
           (mkClassDescriptor "Water" "H2O" None None)).
  - right. left.
  - exists Water. repeat split. right. left.
Defined.

(** The scenario of the specification: one mapping from Forest to
    Deforestation makes PRODES the one system reachable from IBGE. *)
Example get_mappings_sample :
  get_mappings 1 mapped_session = (Ok [2], mapped_session)
  ∧ get_mappings 2 mapped_session = (Ok [], mapped_session).
Proof. split; reflexivity. Qed.

(** Deforestation exists, but in PRODES: declared as a class of IBGE it
    does not resolve. *)
Example insert_mapping_foreign_source :
  insert_mapping 1 2 3 3 None None sample_session
  = (Abort (mkAbort NotFound not_found_description), sample_session).
Proof. reflexivity. Qed.

Lemma insert_mapping_not_found_iff_sample :
  class_of_system (working sample_session) 1 1
  ∧ class_of_system (working sample_session) 3 2
  ∧ insert_mapping 1 2 3 1 None (Some (8 # 10)%Q) sample_session
    = (Ok tt, mapping_added sample_session 1 3 None (Some (8 # 10)%Q))
  ∧ ∃ s2,
      (insert_mapping 1 2 3 1 None (Some (8 # 10)%Q) ;;
       insert_mapping 1 2 3 1 None (Some (8 # 10)%Q)) sample_session
      = (Ok tt, s2)
      ∧ length (filter (λ m, cm_source_class_id m = 1 ∧ cm_target_class_id m = 3)
                       (mappings (working s2)))
        = (2 + length (filter (λ m, cm_source_class_id m = 1%Z
                                    ∧ cm_target_class_id m = 3%Z)
                              (mappings (working sample_session))))%nat.
Proof.
  assert (Hsrc : class_of_system (working sample_session) 1 1).
  { exists Forest. repeat split. left. }
  assert (Htgt : class_of_system (working sample_session) 3 2).
  { exists Deforestation. repeat split. right. right. left. }
  destruct (insert_mapping_not_found_iff sample_session 1 2 3 1 None
              (Some (8 # 10)%Q)) as (_ & Hadd & Htwice).
  split; [done|]. split; [done|]. split.
  - by apply Hadd.
  - by apply Htwice.
Defined.

Lemma update_mapping_falsy_skip_sample :
  update_mapping 1 2 3 1 (Some "") (Some (0 # 1)%Q) mapped_session
  = (Ok tt, mapped_session)
  ∧ ∃ i, mappings (working mapped_session) !! i = Some Forest_to_Deforestation
         ∧ update_mapping 1 2 3 1 (Some "burnt") (Some (0 # 1)%Q) mapped_session
           = (Ok tt,
              mapping_updated mapped_session i Forest_to_Deforestation
                              (Some "burnt") (Some (0 # 1)%Q)).
Proof.
  assert (Hnd : NoDup (cm_id <$> mappings (working mapped_session))).
  { apply (bool_decide_unpack _). vm_compute. exact I. }
  assert (Hsrc : class_of_system (working mapped_session) 1 1).
  { exists Forest. repeat split. left. }
  assert (Htgt : class_of_system (working mapped_session) 3 2).
  { exists Deforestation. repeat split. right. right. left. }
  destruct (update_mapping_falsy_skip mapped_session 1 2 3 1
              (Some "burnt") (Some (0 # 1)%Q) Forest_to_Deforestation
              Hnd Hsrc Htgt eq_refl) as (Hrun & _ & _ & _ & Hskip).
  split; [|exact Hrun].
  exact (Hskip (Some "") (0 # 1)%Q (or_intror eq_refl) (Qeq_refl _)).
Defined.

Lemma insert_file_round_trip_sample :
  ∃ style s1,
    insert_file sample_mimetype 1 1 legend_file sample_session = (Ok style, s1)
    ∧ get_classification_system_style 1 1 s1
      = (Ok (Some (stream legend_file, "application/xml")), s1).
Proof.
  destruct (insert_file_round_trip sample_mimetype sample_session 1 1 legend_file)
    as (style & s1 & Hins & _ & _ & Hget).
  - exists IBGE. repeat split. left.
  - exists QML. repeat split. left.
  - intros st Hst. by apply elem_of_nil in Hst.
  - exists style, s1. by split.
Defined.

Lemma delete_classes_removes_exactly_sample :
  NoDup (lc_id <$> classes (working sample_session))
  ∧ delete_classes IBGE sample_session
    = (Ok tt,
       let after := mkDB [IBGE; PRODES] [Deforestation] [] [QML] [] in
       mkSession after after).
Proof.
  assert (Hnd : NoDup (lc_id <$> classes (working sample_session))).
  { apply (bool_decide_unpack _). vm_compute. exact I. }
  split; [done|].
  exact (proj1 (delete_classes_removes_exactly sample_session IBGE Hnd)).
Defined.

Lemma get_style_format_absent_dumps_None_sample :
  get_style_format (option StyleFormats) id 7 sample_session
  = (Ok None, sample_session)
  ∧ signals (update_style_format 7 "SLD" sample_session).1 NotFound
  ∧ signals (delete_style_format 7 sample_session).1 NotFound
  ∧ signals (get_identifier_style_format "SLD" sample_session).1 NotFound.
Proof.
  destruct (get_style_format_absent_dumps_None (option StyleFormats) id
              sample_session 7) as (Hget & Hupd & Hdel & Hname).
  - intros f Hf. apply list_elem_of_singleton in Hf as ->. by cbn.
  - split; [done|]. split; [apply Hupd|]. split; [done|].
    apply Hname. intros f Hf. apply list_elem_of_singleton in Hf as ->. by cbn.
Defined.

(** * Further properties of the module *)

(** ** Fresh identifiers *)

Lemma fresh_id_above (ids : list Z) x : x ∈ ids → x < fresh_id ids.
Proof.
  unfold fresh_id. induction ids as [|a ids IH]; intros Hx.
  - by apply elem_of_nil in Hx.
  - cbn. apply elem_of_cons in Hx as [->|Hx]; [lia|].
    specialize (IH Hx). lia.
Qed.

Lemma fresh_id_new (ids : list Z) : fresh_id ids ∉ ids.
Proof. intros Hin. apply fresh_id_above in Hin. lia. Qed.

Lemma NoDup_snoc_fresh (ids : list Z) : NoDup ids → NoDup (ids ++ [fresh_id ids]).
Proof.
  intros Hnd. apply NoDup_app. split; [done|]. split.
  - intros x Hx Hin. apply list_elem_of_singleton in Hin as ->.
    by apply fresh_id_new in Hx.
  - apply NoDup_singleton.
Qed.

(** ** Creating a system or a style format and finding it again *)

Lemma create_classification_system_new s name authority_name version description :
  (∀ r, r ∈ systems (working s) → ¬ (cs_name r = name ∧ cs_version r = version)) →
  create_classification_system name authority_name version description s
  = (Ok (new_system (working s) name authority_name version description),
     settled (set_systems
                (λ t, t ++ [new_system (working s) name authority_name version
                                       description])
                (working s))).
Proof.
  intros Hnew. unfold create_classification_system.
  rewrite bind_query. cbv zeta.
  by rewrite (proj2 (first_filter_is_None _ _) Hnew).
Qed.

(** X1.  When no classification system has the pair (name, version),
    [create_classification_system] commits one new row behind the existing
    ones, with an identifier that no existing system has, and returns it;
    [get_identifier_system] for the pair then returns that row, and a second
    create for the pair is refused with status 400 whatever its authority
    and description. *)
Theorem create_classification_system_then_identify
    s name authority_name version description :
  (∀ r, r ∈ systems (working s) → ¬ (cs_name r = name ∧ cs_version r = version)) →
  let row := new_system (working s) name authority_name version description in
  let s1 := settled (set_systems (λ t, t ++ [row]) (working s)) in
  create_classification_system name authority_name version description s
  = (Ok row, s1)
  ∧ (cs_id row ∉ cs_id <$> systems (working s))
  ∧ get_identifier_system name version s1 = (Ok row, s1)
  ∧ ∀ authority_name' description',
      create_classification_system name authority_name' version description' s1
      = (Abort (mkAbort BadRequest "Classification System already registered!"), s1).
Proof.
  intros Hnew row s1. split; [|split; [|split]].
  - by apply create_classification_system_new.
  - apply fresh_id_new.
  - unfold get_identifier_system. rewrite bind_query. cbn.
    rewrite filter_app, (proj2 (filter_nil_iff _ _) Hnew).
    by rewrite filter_cons_True.
  - intros authority_name' description'.
    apply (create_classification_system_duplicate _ _ _ _ _ row); [|done..].
    cbn. apply elem_of_app. right. left.
Qed.

Lemma create_style_format_new s name :
  (∀ f, f ∈ style_formats (working s) → sf_name f ≠ name) →
  create_style_format name s
  = (Ok (new_style_format (working s) name),
     settled (set_style_formats (λ t, t ++ [new_style_format (working s) name])
                                (working s))).
Proof.
  intros Hnew. unfold create_style_format.
  rewrite bind_query. cbv zeta.
  by rewrite (proj2 (first_filter_is_None _ _) Hnew).
Qed.

(** X2.  When no style format has the name, [create_style_format] commits
    one new row with an unused identifier and returns it;
    [get_identifier_style_format] for the name then returns that row, and a
    second create for the name is refused with status 400. *)
Theorem create_style_format_then_identify s name :
  (∀ f, f ∈ style_formats (working s) → sf_name f ≠ name) →
  let row := new_style_format (working s) name in
  let s1 := settled (set_style_formats (λ t, t ++ [row]) (working s)) in
  create_style_format name s = (Ok row, s1)
  ∧ (sf_id row ∉ sf_id <$> style_formats (working s))
  ∧ get_identifier_style_format name s1 = (Ok row, s1)
  ∧ signals (create_style_format name s1).1 BadRequest
  ∧ (create_style_format name s1).2 = s1.
Proof.
  intros Hnew row s1. split; [|split; [|split]].
  - by apply create_style_format_new.
  - apply fresh_id_new.
  - unfold get_identifier_style_format. rewrite bind_query. cbn.
    rewrite filter_app, (proj2 (filter_nil_iff _ _) Hnew).
    by rewrite filter_cons_True.
  - rewrite (create_style_format_duplicate s1 name row); [done| |done].
    cbn. apply elem_of_app. right. left.
Qed.

(** ** A batch of classes is added as a whole or not at all *)

Section class_batch.
Variable system_id : Z.

Let insert_descriptor (d : ClassDescriptor) : M unit :=
  insert_class system_id (cd_name d) (cd_code d) (cd_description d)
               (cd_class_parent_id d).

Lemma insert_descriptor_fresh s d :
  ¬ name_taken (working s) system_id (cd_name d) →
  insert_descriptor d s
  = (Ok tt, mkSession (committed s) (class_added system_id (working s) d)).
Proof.
  intros Hfree. apply insert_class_fresh.
  intros c Hc [Hs Hn]. apply Hfree. by exists c.
Qed.

Lemma insert_descriptor_taken s d :
  name_taken (working s) system_id (cd_name d) →
  insert_descriptor d s
  = (Abort (mkAbort Conflict "Class already registered in the system!"), s).
Proof. intros (c & Hc & Hs & Hn). by eapply insert_class_duplicate. Qed.

Lemma name_taken_dec w name :
  name_taken w system_id name ∨ ¬ name_taken w system_id name.
Proof.
  destruct (filter (λ c, lc_class_system_id c = system_id ∧ lc_name c = name)
              (classes w)) as [|c cs] eqn:F.
  - right. intros (c & Hc & Hs & Hn).
    by destruct (proj1 (filter_nil_iff _ _) F c Hc).
  - left.
    assert (Hin : c ∈ filter
              (λ c, lc_class_system_id c = system_id ∧ lc_name c = name)
              (classes w)) by (rewrite F; left).
    apply list_elem_of_filter in Hin as [[Hs Hn] Hc]. by exists c.
Qed.

Lemma name_taken_class_added w d name :
  name_taken (class_added system_id w d) system_id name
  ↔ name_taken w system_id name ∨ name = cd_name d.
Proof.
  unfold name_taken. cbn. split.
  - intros (c & Hc & Hs & Hn). apply elem_of_app in Hc as [Hc|Hc].
    + left. by exists c.
    + right. apply list_elem_of_singleton in Hc as ->. by cbn in Hn.
  - intros [(c & Hc & Hs & Hn)| ->].
    + exists c. split; [|done]. apply elem_of_app. by left.
    + eexists. split; [apply elem_of_app; right; left|]. done.
Qed.

Lemma for_each_insert_class_ok batch :
  ∀ s, NoDup (cd_name <$> batch) →
       (∀ d, d ∈ batch → ¬ name_taken (working s) system_id (cd_name d)) →
       for_each batch insert_descriptor s
       = (Ok tt, mkSession (committed s) (classes_added system_id (working s) batch)).
Proof.
  induction batch as [|a rest IH]; intros s Hnd Hfree.
  - cbn. by rewrite session_eta.
  - cbn [for_each]. rewrite fmap_cons in Hnd. apply NoDup_cons in Hnd as [Ha Hnd].
    erewrite bind_ok; [|apply insert_descriptor_fresh, Hfree; left].
    rewrite IH; [done|done|].
    intros d Hd Htaken. cbn in Htaken.
    apply name_taken_class_added in Htaken as [Htaken|Hname].
    + apply (Hfree d); [by right|done].
    + apply Ha. rewrite <- Hname. by apply list_elem_of_fmap_2.
Qed.

Lemma for_each_insert_class_result batch :
  ∀ s, ∃ s', committed s' = committed s
             ∧ (for_each batch insert_descriptor s = (Ok tt, s')
                ∨ for_each batch insert_descriptor s
                  = (Abort (mkAbort Conflict "Class already registered in the system!"),
                     s')).
Proof.
  induction batch as [|a rest IH]; intros s.
  - exists s. split; [done|]. by left.
  - cbn [for_each].
    destruct (name_taken_dec (working s) (cd_name a)) as [Htaken|Hfree].
    + exists s. split; [done|]. right.
      erewrite bind_abort; [done|]. by apply insert_descriptor_taken.
    + erewrite bind_ok; [|by apply insert_descriptor_fresh].
      destruct (IH (mkSession (committed s) (class_added system_id (working s) a)))
        as (s' & Hcommitted & Hrun).
      by exists s'.
Qed.

Lemma for_each_insert_class_ok_inv batch :
  ∀ s s', for_each batch insert_descriptor s = (Ok tt, s') →
          NoDup (cd_name <$> batch)
          ∧ ∀ d, d ∈ batch → ¬ name_taken (working s) system_id (cd_name d).
Proof.
  induction batch as [|a rest IH]; intros s s' Hrun.
  - split; [constructor|]. intros d Hd. by apply elem_of_nil in Hd.
  - cbn [for_each] in Hrun.
    destruct (name_taken_dec (working s) (cd_name a)) as [Htaken|Hfree].
    { erewrite bind_abort in Hrun; [done|]. by apply insert_descriptor_taken. }
    erewrite bind_ok in Hrun; [|by apply insert_descriptor_fresh].
    apply IH in Hrun as [Hnd Hrest]. cbn in Hrest. split.
    + rewrite fmap_cons. apply NoDup_cons. split; [|done].
      intros Hin. apply list_elem_of_fmap in Hin as (d & Hname & Hd).
      apply (Hrest d Hd). apply name_taken_class_added. by right.
    + intros d Hd Htaken. apply elem_of_cons in Hd as [->|Hd]; [done|].
      apply (Hrest d Hd). apply name_taken_class_added. by left.
Qed.

Lemma classes_added_rows batch :
  ∀ w, ∃ rows,
    classes (classes_added system_id w batch) = classes w ++ rows
    ∧ Forall2 (describes system_id) batch rows
    ∧ systems (classes_added system_id w batch) = systems w
    ∧ mappings (classes_added system_id w batch) = mappings w
    ∧ style_formats (classes_added system_id w batch) = style_formats w
    ∧ styles (classes_added system_id w batch) = styles w.
Proof.
  induction batch as [|a rest IH]; intros w.
  - exists []. cbn. by rewrite app_nil_r.
  - destruct (IH (class_added system_id w a)) as (rows & Hc & Hd & Hs & Hm & Hf & Hst).
    eexists (_ :: rows). cbn [classes_added foldl].
    fold (classes_added system_id (class_added system_id w a) rest).
    rewrite Hc, Hs, Hm, Hf, Hst. cbn. rewrite <- app_assoc. cbn.
    split; [reflexivity|]. split; [|done].
    constructor; [|done]. by unfold describes.
Qed.

End class_batch.

Lemma classification_system_found s system_id :
  (∃ r, r ∈ systems (working s) ∧ cs_id r = system_id) →
  ∃ sys, classification_system system_id s = (Ok sys, s) ∧ cs_id sys = system_id.
Proof.
  intros (r & Hr & Hid). unfold classification_system. rewrite bind_query.
  destruct (first_or_404_found (λ r, cs_id r = system_id) _ r s Hr Hid)
    as (y & Hy & _ & Hyid).
  by exists y.
Qed.

Lemma classification_system_absent s system_id :
  ¬ (∃ r, r ∈ systems (working s) ∧ cs_id r = system_id) →
  classification_system system_id s
  = (Abort (mkAbort NotFound not_found_description), s).
Proof.
  intros Habsent. unfold classification_system. rewrite bind_query.
  apply first_or_404_absent. intros r Hr Hid. apply Habsent. by exists r.
Qed.

Lemma system_exists_dec w system_id :
  (∃ r, r ∈ systems w ∧ cs_id r = system_id)
  ∨ ¬ (∃ r, r ∈ systems w ∧ cs_id r = system_id).
Proof.
  destruct (filter (λ r, cs_id r = system_id) (systems w)) as [|r rs] eqn:F.
  - right. intros (r & Hr & Hid).
    by destruct (proj1 (filter_nil_iff _ _) F r Hr).
  - left.
    assert (Hin : r ∈ filter (λ r, cs_id r = system_id) (systems w))
      by (rewrite F; left).
    apply list_elem_of_filter in Hin as [Hid Hr]. by exists r.
Qed.

Lemma insert_classes_adds_batch_run s system_id batch :
  (∃ r, r ∈ systems (working s) ∧ cs_id r = system_id) →
  NoDup (cd_name <$> batch) →
  (∀ d, d ∈ batch → ¬ name_taken (working s) system_id (cd_name d)) →
  insert_classes system_id batch s
  = (Ok (filter (λ c, lc_class_system_id c = system_id)
                (classes (classes_added system_id (working s) batch))),
     settled (classes_added system_id (working s) batch)).
Proof.
  intros Hsys Hnd Hfree.
  destruct (classification_system_found s system_id Hsys) as (sys & Hrun & _).
  unfold insert_classes. erewrite bind_ok; [|exact Hrun]. cbn [is_None].
  erewrite bind_ok;
    [|unfold begin_nested;
      by rewrite (for_each_insert_class_ok system_id batch s Hnd Hfree)].
  reflexivity.
Qed.

(** X3.  For an existing system and a batch whose names are pairwise
    different and unused in the system, [insert_classes] commits one class
    row per descriptor, in the order of the batch and behind the rows already
    there, each carrying the name, code, description and parent of its
    descriptor and the id of the system; no other table changes; and the
    call returns the classes of the system as they are then. *)
Theorem insert_classes_adds_batch s system_id batch :
  (∃ r, r ∈ systems (working s) ∧ cs_id r = system_id) →
  NoDup (cd_name <$> batch) →
  (∀ d, d ∈ batch → ¬ name_taken (working s) system_id (cd_name d)) →
  let w := classes_added system_id (working s) batch in
  insert_classes system_id batch s
  = (Ok (filter (λ c, lc_class_system_id c = system_id) (classes w)), settled w)
  ∧ ∃ rows,
      classes w = classes (working s) ++ rows
      ∧ Forall2 (describes system_id) batch rows
      ∧ systems w = systems (working s)
      ∧ mappings w = mappings (working s)
      ∧ style_formats w = style_formats (working s)
      ∧ styles w = styles (working s).
Proof.
  intros Hsys Hnd Hfree w. split; [|apply classes_added_rows].
  by apply insert_classes_adds_batch_run.
Qed.

(** X4.  [insert_classes] is all or nothing.  It succeeds exactly when the
    system exists, the names of the batch are pairwise different and none of
    them is used in the system; and whenever it aborts, with NotFound or
    with Conflict, the session is the one before the call. *)
Theorem insert_classes_all_or_nothing s system_id batch :
  ((∃ out s', insert_classes system_id batch s = (Ok out, s'))
   ↔ (∃ r, r ∈ systems (working s) ∧ cs_id r = system_id)
     ∧ NoDup (cd_name <$> batch)
     ∧ ∀ d, d ∈ batch → ¬ name_taken (working s) system_id (cd_name d))
  ∧ ∀ e s', insert_classes system_id batch s = (Abort e, s') →
            s' = s ∧ (code e = NotFound ∨ code e = Conflict).
Proof.
  destruct (system_exists_dec (working s) system_id) as [Hsys|Hnone].
  - destruct (classification_system_found s system_id Hsys) as (sys & Hrun & _).
    destruct (for_each_insert_class_result system_id batch s)
      as (s1 & Hcommitted & [Hloop|Hloop]).
    + (* the loop runs through *)
      pose proof (for_each_insert_class_ok_inv system_id batch s s1 Hloop)
        as [Hnd Hfree].
      pose proof (insert_classes_adds_batch_run s system_id batch Hsys Hnd Hfree)
        as Hok.
      split.
      * split; [done|]. intros _. eauto.
      * intros e s' Habort. by rewrite Hok in Habort.
    + (* the loop stops at a clash *)
      assert (Habort : insert_classes system_id batch s
                = (Abort (mkAbort Conflict "Class already registered in the system!"),
                   s)).
      { unfold insert_classes. erewrite bind_ok; [|exact Hrun]. cbn [is_None].
        erewrite bind_abort; [done|].
        unfold begin_nested. rewrite Hloop, Hcommitted. by rewrite session_eta. }
      split.
      * split.
        -- intros (out & s' & Hok). by rewrite Habort in Hok.
        -- intros (_ & Hnd & Hfree).
           by rewrite (for_each_insert_class_ok system_id batch s Hnd Hfree) in Hloop.
      * intros e s' Hrun'. rewrite Habort in Hrun'.
        injection Hrun' as <- <-. split; [done|]. by right.
  - assert (Habort : insert_classes system_id batch s
              = (Abort (mkAbort NotFound not_found_description), s)).
    { unfold insert_classes. erewrite bind_abort; [done|].
      by apply classification_system_absent. }
    split.
    + split.
      * intros (out & s' & Hok). by rewrite Habort in Hok.
      * by intros (Hsys & _).
    + intros e s' Hrun'. rewrite Habort in Hrun'.
      injection Hrun' as <- <-. split; [done|]. by left.
Qed.

(** ** Mappings are inserted one commit at a time *)

Lemma for_each_app {A} (l1 l2 : list A) (body : A → M unit) s :
  for_each (l1 ++ l2) body s = (for_each l1 body ;; for_each l2 body) s.
Proof.
  revert s. induction l1 as [|a l1 IH]; intros s; [done|].
  cbn [app for_each]. unfold mbind, M_bind in *.
  destruct (body a s) as [[[]|e] s1]; [|done].
  apply IH.
Qed.

Lemma class_of_system_mapping_stored w d class_id system_id :
  class_of_system (mapping_stored w d) class_id system_id
  ↔ class_of_system w class_id system_id.
Proof. reflexivity. Qed.

Lemma resolves_mappings_stored ds :
  ∀ w src tgt d, resolves (mappings_stored w ds) src tgt d ↔ resolves w src tgt d.
Proof.
  induction ds as [|a ds IH]; intros w src tgt d; [done|].
  cbn. fold (mappings_stored (mapping_stored w a) ds). by rewrite IH.
Qed.

Lemma resolves_after_inserts s ds src tgt d :
  resolves (working (after_inserts s ds)) src tgt d ↔ resolves (working s) src tgt d.
Proof.
  destruct ds as [|a ds]; [done|].
  apply (resolves_mappings_stored (a :: ds)).
Qed.

Lemma insert_one_mapping s src tgt d :
  resolves (working s) src tgt d →
  (begin_nested
     (insert_mapping src tgt (md_target_class_id d) (md_source_class_id d)
                     (md_description d) (md_degree_of_similarity d));;
   commit) s
  = (Ok tt, settled (mapping_stored (working s) d)).
Proof.
  intros [Hsrc Htgt].
  destruct (insert_mapping_cases s src tgt (md_target_class_id d)
              (md_source_class_id d) (md_description d)
              (md_degree_of_similarity d))
    as [[Hn _]|[(_ & Hn & _)|(_ & _ & Hrun)]]; [done..|].
  erewrite bind_ok; [|unfold begin_nested; by rewrite Hrun].
  reflexivity.
Qed.

Lemma insert_one_mapping_unresolved s src tgt d :
  ¬ resolves (working s) src tgt d →
  (begin_nested
     (insert_mapping src tgt (md_target_class_id d) (md_source_class_id d)
                     (md_description d) (md_degree_of_similarity d));;
   commit) s
  = (Abort (mkAbort NotFound not_found_description), s).
Proof.
  intros Hnot.
  destruct (insert_mapping_cases s src tgt (md_target_class_id d)
              (md_source_class_id d) (md_description d)
              (md_degree_of_similarity d))
    as [[_ Hrun]|[(_ & _ & Hrun)|(Hsrc & Htgt & _)]].
  - erewrite bind_abort; [done|].
    unfold begin_nested. rewrite Hrun. by rewrite session_eta.
  - erewrite bind_abort; [done|].
    unfold begin_nested. rewrite Hrun. by rewrite session_eta.
  - by destruct Hnot.
Qed.

Lemma for_each_insert_mapping src tgt ds :
  ∀ s, Forall (resolves (working s) src tgt) ds →
       for_each ds
         (λ d, begin_nested
                 (insert_mapping src tgt (md_target_class_id d)
                    (md_source_class_id d) (md_description d)
                    (md_degree_of_similarity d));;
               commit) s
       = (Ok tt, after_inserts s ds).
Proof.
  induction ds as [|a ds IH]; intros s Hall; [done|].
  apply Forall_cons in Hall as [Ha Hall].
  cbn [for_each]. erewrite bind_ok; [|by apply insert_one_mapping].
  rewrite IH.
  - by destruct ds.
  - eapply Forall_impl; [exact Hall|]. intros d Hd. exact Hd.
Qed.

Lemma mappings_stored_rows ds :
  ∀ w, ∃ rows,
    mappings (mappings_stored w ds) = mappings w ++ rows
    ∧ Forall2 carries ds rows
    ∧ systems (mappings_stored w ds) = systems w
    ∧ classes (mappings_stored w ds) = classes w
    ∧ style_formats (mappings_stored w ds) = style_formats w
    ∧ styles (mappings_stored w ds) = styles w.
Proof.
  induction ds as [|a ds IH]; intros w.
  - exists []. cbn. by rewrite app_nil_r.
  - destruct (IH (mapping_stored w a)) as (rows & Hm & Hd & Hs & Hc & Hf & Hst).
    eexists (_ :: rows). cbn [mappings_stored foldl].
    fold (mappings_stored (mapping_stored w a) ds).
    rewrite Hm, Hs, Hc, Hf, Hst. cbn. rewrite <- app_assoc. cbn.
    split; [reflexivity|]. split; [|done].
    constructor; [|done]. by unfold carries.
Qed.

Lemma get_system_mapping_run s src tgt :
  get_system_mapping src tgt s
  = (Ok (filter
           (λ m, cm_source_class_id m
                   ∈ lc_id <$> filter (λ c, lc_class_system_id c = src)
                                      (classes (working s))
                 ∧ cm_target_class_id m
                     ∈ lc_id <$> filter (λ c, lc_class_system_id c = tgt)
                                        (classes (working s)))
           (mappings (working s))), s).
Proof. unfold get_system_mapping. rewrite !bind_query. reflexivity. Qed.

Lemma get_system_mapping_elem s src tgt :
  ∃ resolved,
    get_system_mapping src tgt s = (Ok resolved, s)
    ∧ ∀ m, m ∈ resolved
           ↔ m ∈ mappings (working s) ∧ maps_between (working s) src tgt m.
Proof.
  eexists. split; [apply get_system_mapping_run|].
  intros m. rewrite list_elem_of_filter, !elem_of_class_ids.
  unfold maps_between. tauto.
Qed.

Lemma carried_rows_between w src tgt ds rows :
  Forall (resolves w src tgt) ds → Forall2 carries ds rows →
  ∀ m, m ∈ rows → maps_between w src tgt m.
Proof.
  intros Hall Hcarries. induction Hcarries as [|d r ds rows Hdr Hrest IH].
  - intros m Hm. by apply elem_of_nil in Hm.
  - apply Forall_cons in Hall as [[Hds Hdt] Hall].
    intros m Hm. apply elem_of_cons in Hm as [->|Hm]; [|by apply IH].
    destruct Hdr as (Hsrc & Htgt & _).
    unfold maps_between. by rewrite Hsrc, Htgt.
Qed.

(** X5.  [insert_mappings] commits descriptor by descriptor.  When the
    descriptors ahead of the first one that does not resolve all resolve,
    the call signals NotFound at that one, and the mappings of the
    descriptors ahead of it stay stored and committed: they are behind the
    rows that were there, one per descriptor and in their order, and nothing
    after the failing descriptor is looked at. *)
Theorem insert_mappings_keeps_earlier
    (Serialized : Type) (ClassesMappingSchema_dump_many : list ClassMapping → Serialized)
    s src tgt ahead failing behind :
  Forall (resolves (working s) src tgt) ahead →
  ¬ resolves (working s) src tgt failing →
  insert_mappings Serialized ClassesMappingSchema_dump_many src tgt
                  (ahead ++ failing :: behind) s
  = (Abort (mkAbort NotFound not_found_description), after_inserts s ahead)
  ∧ (ahead ≠ [] →
     committed (after_inserts s ahead) = working (after_inserts s ahead))
  ∧ ∃ rows,
      mappings (working (after_inserts s ahead)) = mappings (working s) ++ rows
      ∧ Forall2 carries ahead rows.
Proof.
  intros Hahead Hfailing. split; [|split].
  - unfold insert_mappings. erewrite bind_abort; [done|].
    rewrite for_each_app.
    erewrite bind_ok; [|by apply for_each_insert_mapping].
    cbn [for_each]. erewrite bind_abort; [done|].
    apply insert_one_mapping_unresolved.
    by rewrite resolves_after_inserts.
  - by destruct ahead.
  - destruct ahead as [|a ahead].
    + exists []. cbn. by rewrite app_nil_r.
    + destruct (mappings_stored_rows (a :: ahead) (working s))
        as (rows & Hm & Hrows & _).
      by exists rows.
Qed.

(** X6.  When every descriptor resolves, [insert_mappings] succeeds: one
    mapping row per descriptor is stored behind the rows that were there,
    no other table changes, and the call returns the dump of the mappings
    that [get_system_mapping] resolves for the pair of systems afterwards,
    among which are all the rows just stored. *)
Theorem insert_mappings_stores_all
    (Serialized : Type) (ClassesMappingSchema_dump_many : list ClassMapping → Serialized)
    s src tgt ds :
  Forall (resolves (working s) src tgt) ds →
  ∃ resolved rows,
    insert_mappings Serialized ClassesMappingSchema_dump_many src tgt ds s
    = (Ok (ClassesMappingSchema_dump_many resolved), after_inserts s ds)
    ∧ get_system_mapping src tgt (after_inserts s ds)
      = (Ok resolved, after_inserts s ds)
    ∧ mappings (working (after_inserts s ds)) = mappings (working s) ++ rows
    ∧ Forall2 carries ds rows
    ∧ (∀ m, m ∈ rows → m ∈ resolved)
    ∧ systems (working (after_inserts s ds)) = systems (working s)
    ∧ classes (working (after_inserts s ds)) = classes (working s)
    ∧ style_formats (working (after_inserts s ds)) = style_formats (working s)
    ∧ styles (working (after_inserts s ds)) = styles (working s).
Proof.
  intros Hall.
  destruct (get_system_mapping_elem (after_inserts s ds) src tgt)
    as (resolved & Hget & Helem).
  assert (Hrows : ∃ rows,
            mappings (working (after_inserts s ds)) = mappings (working s) ++ rows
            ∧ Forall2 carries ds rows
            ∧ systems (working (after_inserts s ds)) = systems (working s)
            ∧ classes (working (after_inserts s ds)) = classes (working s)
            ∧ style_formats (working (after_inserts s ds)) = style_formats (working s)
            ∧ styles (working (after_inserts s ds)) = styles (working s)).
  { destruct ds as [|a ds].
    - exists []. cbn. by rewrite app_nil_r.
    - apply (mappings_stored_rows (a :: ds)). }
  destruct Hrows as (rows & Hm & Hcarries & Hs & Hc & Hf & Hst).
  exists resolved, rows. split; [|split; [done|split; [done|split; [done|]]]].
  - unfold insert_mappings.
    erewrite bind_ok; [|by apply for_each_insert_mapping].
    unfold get_mapping. erewrite bind_ok; [|erewrite bind_ok; [|exact Hget]; done].
    reflexivity.
  - split; [|done].
    intros m Hm'. apply Helem. split.
    + rewrite Hm. apply elem_of_app. by right.
    + unfold maps_between, class_of_system. rewrite Hc.
      by apply (carried_rows_between (working s) src tgt ds rows).
Qed.

(** ** What [delete_mappings] leaves behind *)

Lemma delete_mappings_state s src tgt :
  ∃ resolved : list ClassMapping,
    (∀ m, m ∈ resolved
          ↔ m ∈ mappings (working s) ∧ maps_between (working s) src tgt m)
    ∧ delete_mappings src tgt s
      = (Ok tt,
         settled (set_mappings (filter (λ r, cm_id r ∉ cm_id <$> resolved))
                               (working s))).
Proof.
  destruct (delete_mappings_run s src tgt) as (resolved & Hget & Hrun).
  destruct (get_system_mapping_elem s src tgt) as (resolved' & Hget' & Helem).
  rewrite Hget in Hget'. injection Hget' as <-.
  by exists resolved.
Qed.

(** X7.  [delete_mappings] always returns normally and commits, and after
    it [get_system_mapping] resolves no mapping between the two systems; a
    second [delete_mappings] on the pair returns normally too and changes
    nothing. *)
Theorem delete_mappings_leaves_none s src tgt :
  ∃ s', delete_mappings src tgt s = (Ok tt, s')
        ∧ committed s' = working s'
        ∧ get_system_mapping src tgt s' = (Ok [], s')
        ∧ delete_mappings src tgt s' = (Ok tt, s').
Proof.
  destruct (delete_mappings_state s src tgt) as (resolved & Helem & Hrun).
  eexists. split; [exact Hrun|]. split; [done|].
  assert (Hnone : get_system_mapping src tgt
            (settled (set_mappings (filter (λ r, cm_id r ∉ cm_id <$> resolved))
                                   (working s)))
          = (Ok [], settled (set_mappings
                               (filter (λ r, cm_id r ∉ cm_id <$> resolved))
                               (working s)))).
  { rewrite get_system_mapping_run. do 2 f_equal.
    apply filter_nil_iff. intros m Hm [Hsrc Htgt].
    cbn in Hm. apply list_elem_of_filter in Hm as [Hkept Hm].
    apply Hkept, list_elem_of_fmap_2, Helem. split; [done|].
    cbn in Hsrc, Htgt. apply elem_of_class_ids in Hsrc, Htgt. by split. }
  split; [exact Hnone|].
  destruct (delete_mappings_run
              (settled (set_mappings (filter (λ r, cm_id r ∉ cm_id <$> resolved))
                                     (working s))) src tgt)
    as (resolved' & Hget & Hrun').
  rewrite Hnone in Hget. injection Hget as <-.
  rewrite Hrun'. cbn. unfold settled, set_mappings. cbn.
  by rewrite filter_no_keys.
Qed.

(** X8.  On a mapping table with distinct identifiers, [delete_mappings]
    removes exactly the mappings that lead from a class of the source
    system to a class of the target system: the other mapping rows are kept,
    in their order, and no other table changes. *)
Theorem delete_mappings_removes_exactly s src tgt :
  NoDup (cm_id <$> mappings (working s)) →
  ∃ w, delete_mappings src tgt s = (Ok tt, settled w)
       ∧ sublist (mappings w) (mappings (working s))
       ∧ (∀ m, m ∈ mappings w
               ↔ m ∈ mappings (working s) ∧ ¬ maps_between (working s) src tgt m)
       ∧ systems w = systems (working s)
       ∧ classes w = classes (working s)
       ∧ style_formats w = style_formats (working s)
       ∧ styles w = styles (working s).
Proof.
  intros Hnd.
  destruct (delete_mappings_state s src tgt) as (resolved & Helem & Hrun).
  eexists. split; [exact Hrun|]. cbn.
  split; [apply sublist_filter|]. split; [|done].
  intros m. rewrite list_elem_of_filter. split.
  - intros [Hkept Hm]. split; [done|]. intros Hbetween.
    apply Hkept, list_elem_of_fmap_2, Helem. by split.
  - intros [Hm Hnot]. split; [|done]. intros Hin.
    apply list_elem_of_fmap in Hin as (r & Hid & Hr).
    apply Helem in Hr as [Hr Hbetween].
    by rewrite (same_key_same_row cm_id _ m r Hnd Hm Hr Hid) in Hnot.
Qed.

(** ** When [update_mapping] aborts *)

Lemma mapping_lookup_nil (w : DB) sc tc :
  filter (λ m, cm_source_class_id m = sc ∧ cm_target_class_id m = tc) (mappings w) = []
  ↔ ¬ mapping_exists w sc tc.
Proof.
  rewrite filter_nil_iff. unfold mapping_exists. split.
  - intros Hall (m & Hm & Hs & Ht). by destruct (Hall m Hm).
  - intros Hnone m Hm [Hs Ht]. apply Hnone. by exists m.
Qed.

Lemma mapping_lookup_cons (w : DB) sc tc m ms :
  filter (λ m, cm_source_class_id m = sc ∧ cm_target_class_id m = tc) (mappings w)
  = m :: ms →
  mapping_exists w sc tc.
Proof.
  intros F.
  assert (Hin : m ∈ filter (λ m, cm_source_class_id m = sc ∧ cm_target_class_id m = tc)
                      (mappings w)) by (rewrite F; left).
  apply list_elem_of_filter in Hin as [[Hs Ht] Hm]. by exists m.
Qed.

Lemma update_mapping_cases s src tgt tc sc d deg :
  (¬ (class_of_system (working s) sc src ∧ class_of_system (working s) tc tgt
      ∧ mapping_exists (working s) sc tc)
   ∧ update_mapping src tgt tc sc d deg s
     = (Abort (mkAbort NotFound not_found_description), s))
  ∨ (class_of_system (working s) sc src ∧ class_of_system (working s) tc tgt
     ∧ ∃ m, first (filter (λ r, cm_source_class_id r = sc ∧ cm_target_class_id r = tc)
                          (mappings (working s))) = Some m
            ∧ update_mapping src tgt tc sc d deg s
              = (Ok tt,
                 settled (if truthy_str d || truthy_num deg
                          then set_mappings
                                 (update_row cm_id (changed_mapping m d deg))
                                 (working s)
                          else working s))).
Proof.
  unfold update_mapping. rewrite bind_query.
  destruct (filter (λ c, lc_id c = sc ∧ lc_class_system_id c = src)
              (classes (working s))) as [|c1 cs1] eqn:F1.
  { left. split; [|done]. intros (H & _). by apply class_lookup_nil in F1. }
  apply class_lookup_cons in F1.
  erewrite bind_ok; [|reflexivity]. rewrite bind_query.
  destruct (filter (λ c, lc_id c = tc ∧ lc_class_system_id c = tgt)
              (classes (working s))) as [|c2 cs2] eqn:F2.
  { left. split; [|done]. intros (_ & H & _). by apply class_lookup_nil in F2. }
  apply class_lookup_cons in F2.
  erewrite bind_ok; [|reflexivity]. rewrite bind_query.
  destruct (filter (λ m, cm_source_class_id m = sc ∧ cm_target_class_id m = tc)
              (mappings (working s))) as [|m ms] eqn:F3.
  { left. split; [|done]. intros (_ & _ & H). by apply mapping_lookup_nil in F3. }
  right. split; [done|]. split; [done|]. exists m. split; [done|].
  erewrite bind_ok; [|reflexivity].
  unfold changed_mapping, settled.
  destruct (truthy_str d), (truthy_num deg);
    cbv [begin_nested setattr_mapping modify commit mbind M_bind mret M_ret];
    cbn; unfold set_mappings; cbn; [|done..].
  by rewrite update_row_twice.
Qed.

(** X9.  [update_mapping] signals NotFound exactly when the source class
    does not resolve within the source system, or the target class does not
    resolve within the target system, or no mapping row has the pair of
    class ids.  It has no other abort, an abort leaves the session as it was,
    and when it succeeds the result is committed and the classes, the number
    of mappings and their identifiers are as before. *)
Theorem update_mapping_not_found_iff s src tgt tc sc d deg :
  (signals (update_mapping src tgt tc sc d deg s).1 NotFound
   ↔ ¬ class_of_system (working s) sc src
     ∨ ¬ class_of_system (working s) tc tgt
     ∨ ¬ mapping_exists (working s) sc tc)
  ∧ (∀ e s', update_mapping src tgt tc sc d deg s = (Abort e, s') →
             s' = s ∧ code e = NotFound)
  ∧ (∀ s', update_mapping src tgt tc sc d deg s = (Ok tt, s') →
           committed s' = working s'
           ∧ classes (working s') = classes (working s)
           ∧ cm_id <$> mappings (working s') = cm_id <$> mappings (working s)).
Proof.
  destruct (update_mapping_cases s src tgt tc sc d deg)
    as [[Hnot Hrun]|(Hsrc & Htgt & m & Hm & Hrun)]; rewrite Hrun.
  - split; [|split].
    + split; [|done]. intros _.
      destruct (filter (λ c, lc_id c = sc ∧ lc_class_system_id c = src)
                  (classes (working s))) as [|c1 cs1] eqn:F1.
      { left. by apply class_lookup_nil. }
      apply class_lookup_cons in F1.
      destruct (filter (λ c, lc_id c = tc ∧ lc_class_system_id c = tgt)
                  (classes (working s))) as [|c2 cs2] eqn:F2.
      { right. left. by apply class_lookup_nil. }
      apply class_lookup_cons in F2.
      right. right. intros Hex. by apply Hnot.
    + intros e s' Heq. by injection Heq as <- <-.
    + intros s' Heq. done.
  - assert (Hex : mapping_exists (working s) sc tc).
    { unfold first in Hm.
      destruct (filter _ (mappings (working s))) as [|m0 ms] eqn:F; [done|].
      by eapply mapping_lookup_cons. }
    split; [|split].
    + split; [done|]. intros [H|[H|H]]; by destruct H.
    + intros e s' Heq. done.
    + intros s' Heq. injection Heq as <-. split; [done|].
      destruct (truthy_str d || truthy_num deg); [|done]. cbn. split; [done|].
      unfold update_row. rewrite <- list_fmap_compose.
      apply list_fmap_ext. intros _ r _. cbn. by case_decide.
Qed.

(** ** Mappings are updated one commit at a time *)

Lemma mapping_exists_pairs w sc tc :
  mapping_exists w sc tc ↔ (sc, tc) ∈ mapping_pairs w.
Proof.
  unfold mapping_exists, mapping_pairs. rewrite list_elem_of_fmap. split.
  - intros (m & Hm & <- & <-). by exists m.
  - intros (m & Heq & Hm). injection Heq as -> ->. by exists m.
Qed.

Lemma updatable_same w w' src tgt d :
  classes w' = classes w → mapping_pairs w' = mapping_pairs w →
  updatable w' src tgt d ↔ updatable w src tgt d.
Proof.
  intros Hc Hp. unfold updatable, resolves, class_of_system.
  rewrite !mapping_exists_pairs, Hc, Hp. done.
Qed.

Lemma update_one_mapping s src tgt d :
  NoDup (cm_id <$> mappings (working s)) →
  updatable (working s) src tgt d →
  ∃ s1, update_mapping src tgt (md_target_class_id d) (md_source_class_id d)
                       (md_description d) (md_degree_of_similarity d) s
        = (Ok tt, s1)
        ∧ committed s1 = working s1
        ∧ classes (working s1) = classes (working s)
        ∧ mapping_pairs (working s1) = mapping_pairs (working s)
        ∧ cm_id <$> mappings (working s1) = cm_id <$> mappings (working s).
Proof.
  intros Hnd [[Hsrc Htgt] Hex].
  destruct (update_mapping_cases s src tgt (md_target_class_id d)
              (md_source_class_id d) (md_description d)
              (md_degree_of_similarity d))
    as [[Hnot _]|(_ & _ & m & Hm & Hrun)]; [by destruct Hnot|].
  eexists. split; [exact Hrun|]. split; [done|].
  destruct (truthy_str (md_description d) || truthy_num (md_degree_of_similarity d));
    [|done].
  assert (Hin : m ∈ mappings (working s)).
  { unfold first in Hm.
    destruct (filter _ (mappings (working s))) as [|m0 ms] eqn:F; [done|].
    injection Hm as ->.
    assert (Hin : m ∈ filter
              (λ r, cm_source_class_id r = md_source_class_id d
                    ∧ cm_target_class_id r = md_target_class_id d)
              (mappings (working s))) by (rewrite F; left).
    by apply list_elem_of_filter in Hin as [_ ?]. }
  cbn. split; [done|]. unfold mapping_pairs, update_row. cbn.
  rewrite <- !list_fmap_compose. split.
  - apply list_fmap_ext. intros i r Hr. cbn. case_decide as Hid; [|done].
    apply list_elem_of_lookup_2 in Hr.
    by rewrite (same_key_same_row cm_id _ r m Hnd Hr Hin Hid).
  - apply list_fmap_ext. intros i r Hr. cbn. by case_decide.
Qed.

Lemma for_each_update_mapping src tgt ds :
  ∀ s, NoDup (cm_id <$> mappings (working s)) →
       Forall (updatable (working s) src tgt) ds →
       ∃ s1, for_each ds
               (λ d, update_mapping src tgt (md_target_class_id d)
                       (md_source_class_id d) (md_description d)
                       (md_degree_of_similarity d)) s
             = (Ok tt, s1)
             ∧ (ds ≠ [] → committed s1 = working s1)
             ∧ classes (working s1) = classes (working s)
             ∧ mapping_pairs (working s1) = mapping_pairs (working s).
Proof.
  induction ds as [|a ds IH]; intros s Hnd Hall.
  - by exists s.
  - apply Forall_cons in Hall as [Ha Hall].
    destruct (update_one_mapping s src tgt a Hnd Ha)
      as (s1 & Hrun & Hcommitted & Hc & Hp & Hids).
    destruct (IH s1) as (s2 & Hloop & Hcommitted2 & Hc2 & Hp2).
    + by rewrite Hids.
    + eapply Forall_impl; [exact Hall|]. intros d Hd.
      by apply (updatable_same (working s) (working s1)).
    + exists s2. cbn [for_each]. erewrite bind_ok; [|exact Hrun].
      split; [done|]. split; [|split; congruence].
      intros _. destruct ds as [|b ds]; [|by apply Hcommitted2].
      cbn in Hloop. by injection Hloop as <-.
Qed.

(** X10.  [update_mappings] commits descriptor by descriptor.  On a mapping
    table with distinct identifiers, a batch whose descriptors all resolve
    and have a mapping row succeeds; and when such a batch is followed by a
    descriptor that does not resolve or has no mapping row, the call signals
    NotFound and leaves the session exactly as the updates ahead of that
    descriptor leave it, committed. *)
Theorem update_mappings_keeps_earlier
    (Serialized : Type) (ClassesMappingSchema_dump_many : list ClassMapping → Serialized)
    s src tgt ahead failing behind :
  NoDup (cm_id <$> mappings (working s)) →
  Forall (updatable (working s) src tgt) ahead →
  ¬ updatable (working s) src tgt failing →
  ∃ out s1,
    update_mappings Serialized ClassesMappingSchema_dump_many src tgt ahead s
    = (Ok out, s1)
    ∧ update_mappings Serialized ClassesMappingSchema_dump_many src tgt
                      (ahead ++ failing :: behind) s
      = (Abort (mkAbort NotFound not_found_description), s1)
    ∧ (ahead ≠ [] → committed s1 = working s1).
Proof.
  intros Hnd Hahead Hfailing.
  destruct (for_each_update_mapping src tgt ahead s Hnd Hahead)
    as (s1 & Hloop & Hcommitted & Hc & Hp).
  destruct (get_system_mapping_elem s1 src tgt) as (resolved & Hget & _).
  exists (ClassesMappingSchema_dump_many resolved), s1.
  split; [|split; [|done]].
  - unfold update_mappings. erewrite bind_ok; [|exact Hloop].
    unfold get_mapping. erewrite bind_ok; [|erewrite bind_ok; [|exact Hget]; done].
    reflexivity.
  - unfold update_mappings. erewrite bind_abort; [done|].
    rewrite for_each_app. erewrite bind_ok; [|exact Hloop].
    cbn [for_each]. erewrite bind_abort; [done|].
    destruct (update_mapping_cases s1 src tgt (md_target_class_id failing)
                (md_source_class_id failing) (md_description failing)
                (md_degree_of_similarity failing))
      as [[_ Hrun]|(Hsrc & Htgt & m & Hm & _)]; [done|].
    destruct Hfailing.
    apply (updatable_same (working s) (working s1)); [done..|].
    split; [by split|].
    unfold first in Hm.
    destruct (filter _ (mappings (working s1))) as [|m0 ms] eqn:F; [done|].
    by eapply mapping_lookup_cons.
Qed.

(** ** A stored mapping makes its target system reachable *)

Lemma get_mappings_elem s src :
  ∃ l, get_mappings src s = (Ok l, s)
       ∧ ∀ system_id,
           system_id ∈ l ↔
           ∃ sys c m,
             sys ∈ systems (working s) ∧ cs_id sys = system_id
             ∧ c ∈ classes (working s) ∧ lc_class_system_id c = system_id
             ∧ m ∈ mappings (working s) ∧ cm_target_class_id m = lc_id c
             ∧ class_of_system (working s) (cm_source_class_id m) src.
Proof.
  eexists. split.
  { unfold get_mappings. rewrite !bind_query. cbv zeta. reflexivity. }
  intros system_id. unfold distinct, join.
  rewrite elem_of_remove_dups, list_elem_of_fmap.
  setoid_rewrite list_elem_of_filter. setoid_rewrite list_elem_of_filter.
  setoid_rewrite list_elem_of_cprod.
  setoid_rewrite elem_of_remove_dups. setoid_rewrite list_elem_of_fmap.
  setoid_rewrite list_elem_of_filter. setoid_rewrite elem_of_class_ids.
  split.
  - intros ([sys c] & -> & (m & Htgt & Hsrc & Hm) & Hon & Hsys & Hc). cbn in *.
    exists sys, c, m. by repeat split.
  - intros (sys & c & m & Hsys & Hid & Hc & Hown & Hm & Htgt & Hsrc).
    exists (sys, c). cbn. split; [done|]. split; [by exists m|].
    split; [congruence|done].
Qed.

(** X11.  After [insert_mappings] has stored at least one mapping between
    a source and a target system, and the target system has a row,
    [get_mappings] for the source system lists the target system. *)
Theorem insert_mappings_makes_reachable
    (Serialized : Type) (ClassesMappingSchema_dump_many : list ClassMapping → Serialized)
    s src tgt ds :
  ds ≠ [] →
  Forall (resolves (working s) src tgt) ds →
  (∃ r, r ∈ systems (working s) ∧ cs_id r = tgt) →
  ∃ out s1 l,
    insert_mappings Serialized ClassesMappingSchema_dump_many src tgt ds s
    = (Ok out, s1)
    ∧ get_mappings src s1 = (Ok l, s1)
    ∧ tgt ∈ l.
Proof.
  intros Hne Hall (sys & Hsys & Hid).
  destruct (get_system_mapping_elem (after_inserts s ds) src tgt)
    as (resolved & Hget & _).
  destruct (get_mappings_elem (after_inserts s ds) src) as (l & Hl & Helem).
  exists (ClassesMappingSchema_dump_many resolved), (after_inserts s ds), l.
  split; [|split; [done|]].
  - unfold insert_mappings.
    erewrite bind_ok; [|by apply for_each_insert_mapping].
    unfold get_mapping. erewrite bind_ok; [|erewrite bind_ok; [|exact Hget]; done].
    reflexivity.
  - destruct ds as [|d ds]; [done|].
    destruct (mappings_stored_rows (d :: ds) (working s))
      as (rows & Hm & Hcarries & Hs & Hc & _).
    inversion Hcarries as [|d' r ds' rows' Hdr Hrest]; subst.
    apply Forall_cons in Hall as [[Hsrc (c & Hcin & Hcid & Hcsys)] _].
    destruct Hdr as (Hrs & Hrt & _).
    apply Helem. exists sys, c, r. cbn [after_inserts settled working].
    rewrite Hs, Hc, Hm. repeat split; try done.
    + apply elem_of_app. right. left.
    + congruence.
    + unfold class_of_system. rewrite Hc, Hrs. done.
Qed.

(** ** Styles: the joined lookup *)

Section joined_lookup.
Context {A B : Type} (P : A * B → Prop) `{∀ p, Decision (P p)}.

Lemma filter_pairs_of (a : A) (l : list B) :
  filter P (pair a <$> l) = pair a <$> filter (λ b, P (a, b)) l.
Proof.
  induction l as [|b l IH]; [done|]. cbn [fmap list_fmap].
  destruct (decide (P (a, b))) as [HP|HP].
  - rewrite !filter_cons_True by done. cbn. by rewrite IH.
  - rewrite !filter_cons_False by done. by rewrite IH.
Qed.

Lemma cprod_cons (a : A) (l : list A) (k : list B) :
  cprod (a :: l) k = (pair a <$> k) ++ cprod l k.
Proof. reflexivity. Qed.

End joined_lookup.

Lemma first_app {A} (l k : list A) :
  first (l ++ k) = match first l with Some x => Some x | None => first k end.
Proof. by destruct l. Qed.

(** With the style format present, the joined query of
    [get_classification_system_style] finds the first style of the pair. *)
Lemma joined_style_lookup (st : list Styles) (fm : list StyleFormats)
    system_id style_format_id f0 :
  f0 ∈ fm → sf_id f0 = style_format_id →
  (λ p : Styles * StyleFormats, (st_style p.1, st_mime_type p.1)) <$>
    first (filter (λ p : Styles * StyleFormats,
                     st_class_system_id p.1 = system_id
                     ∧ st_style_format_id p.1 = style_format_id)
                  (join st fm (λ p, sf_id p.2 = st_style_format_id p.1)))
  = style_file_of <$>
      first (filter (λ s, st_class_system_id s = system_id
                          ∧ st_style_format_id s = style_format_id) st).
Proof.
  intros Hf0 Hid. unfold join. rewrite list_filter_filter.
  induction st as [|a st IH]; [done|].
  rewrite cprod_cons, filter_app, filter_pairs_of, first_app. cbn [fst snd].
  destruct (decide (st_class_system_id a = system_id
                    ∧ st_style_format_id a = style_format_id)) as [Ha|Ha].
  - rewrite (filter_cons_True _ a) by done. cbn [first head fmap option_fmap option_map].
    destruct (filter _ fm) as [|f fs] eqn:F.
    + destruct (proj1 (filter_nil_iff _ _) F f0 Hf0).
      split; [done|]. destruct Ha as [_ ->]. done.
    + done.
  - rewrite (filter_cons_False _ a) by done.
    rewrite (proj2 (filter_nil_iff _ fm)); [exact IH|].
    intros f _ [Hw _]. by apply Ha.
Qed.

(** Without the style format, the joined query finds nothing. *)
Lemma joined_style_lookup_no_format (st : list Styles) (fm : list StyleFormats)
    system_id style_format_id :
  (∀ f, f ∈ fm → sf_id f ≠ style_format_id) →
  filter (λ p : Styles * StyleFormats,
            st_class_system_id p.1 = system_id
            ∧ st_style_format_id p.1 = style_format_id)
         (join st fm (λ p, sf_id p.2 = st_style_format_id p.1))
  = [].
Proof.
  intros Hnone. apply filter_nil_iff. intros [a f] Hin [_ Hfmt].
  unfold join in Hin. apply list_elem_of_filter in Hin as [Hon Hin].
  apply list_elem_of_cprod in Hin as [_ Hf]. cbn in *.
  apply (Hnone f Hf). congruence.
Qed.

Lemma style_format_exists_dec w style_format_id :
  style_format_exists w style_format_id ∨ ¬ style_format_exists w style_format_id.
Proof.
  destruct (filter (λ f, sf_id f = style_format_id) (style_formats w))
    as [|f fs] eqn:F.
  - right. intros (f & Hf & Hid).
    by destruct (proj1 (filter_nil_iff _ _) F f Hf).
  - left.
    assert (Hin : f ∈ filter (λ f, sf_id f = style_format_id) (style_formats w))
      by (rewrite F; left).
    apply list_elem_of_filter in Hin as [Hid Hf]. by exists f.
Qed.

Lemma style_lookup_nil w system_id style_format_id :
  filter (λ st, st_class_system_id st = system_id
                ∧ st_style_format_id st = style_format_id) (styles w) = []
  ↔ ¬ style_stored w system_id style_format_id.
Proof.
  rewrite filter_nil_iff. unfold style_stored. split.
  - intros Hall (st & Hst & Hs & Hf). by destruct (Hall st Hst).
  - intros Hnone st Hst [Hs Hf]. apply Hnone. by exists st.
Qed.

Lemma style_lookup_cons w system_id style_format_id st sts :
  filter (λ st, st_class_system_id st = system_id
                ∧ st_style_format_id st = style_format_id) (styles w)
  = st :: sts →
  st ∈ styles w ∧ st_class_system_id st = system_id
  ∧ st_style_format_id st = style_format_id.
Proof.
  intros F.
  assert (Hin : st ∈ filter (λ st, st_class_system_id st = system_id
                                   ∧ st_style_format_id st = style_format_id)
                       (styles w)) by (rewrite F; left).
  apply list_elem_of_filter in Hin. tauto.
Qed.

Lemma get_classification_system_style_run s system_id style_format_id :
  get_classification_system_style system_id style_format_id s
  = (Ok ((λ p : Styles * StyleFormats, (st_style p.1, st_mime_type p.1)) <$>
           first (filter (λ p : Styles * StyleFormats,
                            st_class_system_id p.1 = system_id
                            ∧ st_style_format_id p.1 = style_format_id)
                         (join (styles (working s)) (style_formats (working s))
                               (λ p, sf_id p.2 = st_style_format_id p.1)))), s).
Proof.
  unfold get_classification_system_style. rewrite !bind_query. reflexivity.
Qed.

(** X12.  [get_classification_system_style] never aborts and never changes
    the session.  It returns [None] exactly when no style is stored for the
    pair or the style format has no row; otherwise it returns the payload
    and MIME type of a style row stored for the pair. *)
Theorem get_classification_system_style_outcome s system_id style_format_id :
  ∃ out,
    get_classification_system_style system_id style_format_id s = (Ok out, s)
    ∧ (out = None
       ↔ ¬ style_stored (working s) system_id style_format_id
         ∨ ¬ style_format_exists (working s) style_format_id)
    ∧ ∀ file, out = Some file →
        ∃ st, st ∈ styles (working s)
              ∧ st_class_system_id st = system_id
              ∧ st_style_format_id st = style_format_id
              ∧ file = style_file_of st.
Proof.
  eexists. split; [apply get_classification_system_style_run|].
  destruct (style_format_exists_dec (working s) style_format_id)
    as [(f0 & Hf0 & Hid)|Hnone].
  - rewrite (joined_style_lookup _ _ _ _ f0 Hf0 Hid).
    destruct (filter (λ st, st_class_system_id st = system_id
                            ∧ st_style_format_id st = style_format_id)
                (styles (working s))) as [|st sts] eqn:F.
    + split.
      * split; [|done]. intros _. left. by apply style_lookup_nil.
      * intros file Hfile. done.
    + apply style_lookup_cons in F as (Hst & Hs & Hf). split.
      * split; [done|]. intros [Hno|Hno].
        -- destruct Hno. by exists st.
        -- destruct Hno. by exists f0.
      * intros file Hfile. cbn in Hfile. injection Hfile as <-. by exists st.
  - rewrite joined_style_lookup_no_format.
    + split; [|done]. split; [|done]. intros _. by right.
    + intros f Hf Hid. apply Hnone. by exists f.
Qed.

(** ** Styles: storing, replacing and deleting a file *)

Lemma insert_file_cases get_mimetype s style_format_id system_id file :
  (¬ (system_exists (working s) system_id
      ∧ style_format_exists (working s) style_format_id)
   ∧ insert_file get_mimetype style_format_id system_id file s
     = (Abort (mkAbort NotFound not_found_description), s))
  ∨ (system_exists (working s) system_id
     ∧ style_format_exists (working s) style_format_id
     ∧ insert_file get_mimetype style_format_id system_id file s
       = (Ok (new_style (working s) system_id style_format_id
                        (get_mimetype (filename file)) (read file)),
          settled (set_styles
                     (λ t, t ++ [new_style (working s) system_id style_format_id
                                           (get_mimetype (filename file))
                                           (read file)])
                     (working s)))).
Proof.
  unfold insert_file.
  destruct (system_exists_dec (working s) system_id) as [Hsys|Hsys].
  - destruct (classification_system_found s system_id Hsys) as (sys & Hrun & _).
    erewrite bind_ok; [|exact Hrun]. rewrite bind_query.
    destruct (filter (λ f, sf_id f = style_format_id) (style_formats (working s)))
      as [|f fs] eqn:F.
    + left. split; [|done]. intros [_ (f & Hf & Hid)].
      by destruct (proj1 (filter_nil_iff _ _) F f Hf).
    + right. split; [done|]. split; [|done].
      assert (Hin : f ∈ filter (λ f, sf_id f = style_format_id)
                          (style_formats (working s))) by (rewrite F; left).
      apply list_elem_of_filter in Hin as [Hid Hf]. by exists f.
  - left. split; [by intros [? _]|].
    erewrite bind_abort; [done|]. by apply classification_system_absent.
Qed.

(** X13.  [insert_file] signals NotFound exactly when the classification
    system or the style format has no row, and then the session is as it
    was.  Otherwise it commits one new style row behind the rows already
    there, with an unused identifier, the given pair of ids, the bytes read
    from the file and the MIME type of its name, and returns that row; no
    other table changes. *)
Theorem insert_file_not_found_iff get_mimetype s style_format_id system_id file :
  (signals (insert_file get_mimetype style_format_id system_id file s).1 NotFound
   ↔ ¬ system_exists (working s) system_id
     ∨ ¬ style_format_exists (working s) style_format_id)
  ∧ (∀ e s', insert_file get_mimetype style_format_id system_id file s
             = (Abort e, s') → s' = s ∧ code e = NotFound)
  ∧ (∀ style s', insert_file get_mimetype style_format_id system_id file s
                 = (Ok style, s') →
       style = mkStyle (st_id style) system_id style_format_id
                       (get_mimetype (filename file)) (read file)
       ∧ (st_id style ∉ st_id <$> styles (working s))
       ∧ s' = settled (set_styles (λ t, t ++ [style]) (working s))).
Proof.
  destruct (insert_file_cases get_mimetype s style_format_id system_id file)
    as [[Hnot Hrun]|(Hsys & Hfmt & Hrun)]; rewrite Hrun.
  - split; [|split].
    + split; [|done]. intros _.
      destruct (system_exists_dec (working s) system_id) as [Hsys|Hsys];
        [|by left].
      right. intros Hfmt. by apply Hnot.
    + intros e s' Heq. by injection Heq as <- <-.
    + intros style s' Heq. done.
  - split; [|split].
    + split; [done|]. intros [H|H]; by destruct H.
    + intros e s' Heq. done.
    + intros style s' Heq. injection Heq as <- <-.
      split; [done|]. split; [apply fresh_id_new|done].
Qed.

Lemma filter_all {A} (P : A → Prop) `{∀ x, Decision (P x)} (l : list A) :
  (∀ x, x ∈ l → P x) → filter P l = l.
Proof.
  induction l as [|a l IH]; intros Hall; [done|].
  rewrite filter_cons_True by (apply Hall; left).
  rewrite IH; [done|]. intros x Hx. apply Hall. by right.
Qed.



(** X14.  For an existing system and style format with no style stored for
    the pair, [insert_file] followed by [delete_file] on the pair succeeds
    and commits the rows the transaction started from: the stored style is
    removed again and nothing else is touched. *)
Theorem insert_file_then_delete_file get_mimetype s style_format_id system_id file :
  system_exists (working s) system_id →
  style_format_exists (working s) style_format_id →
  ¬ style_stored (working s) system_id style_format_id →
  (insert_file get_mimetype style_format_id system_id file ;;
   delete_file style_format_id system_id) s
  = (Ok tt, settled (working s)).
Proof.
  intros Hsys Hfmt Hnone.
  destruct (insert_file_cases get_mimetype s style_format_id system_id file)
    as [[Hnot _]|(_ & _ & Hrun)]; [by destruct Hnot|].
  erewrite bind_ok; [|exact Hrun].
  set (row := new_style (working s) system_id style_format_id
                (get_mimetype (filename file)) (read file)).
  assert (Hold : ∀ st, st ∈ styles (working s) →
                       ¬ (st_style_format_id st = style_format_id
                          ∧ st_class_system_id st = system_id)).
  { intros st Hst [Hf Hs]. apply Hnone. by exists st. }
  unfold delete_file. rewrite bind_query. cbn.
  rewrite filter_app, (proj2 (filter_nil_iff _ _) Hold).
  rewrite filter_cons_True by done. cbn [app filter list_filter].
  erewrite bind_ok; [|reflexivity].
  cbv [begin_nested modify commit mbind M_bind mret M_ret]. cbn.
  unfold settled, set_styles. cbn. unfold delete_row.
  rewrite filter_app, filter_cons_False, filter_nil, app_nil_r by (cbn; tauto).
  rewrite filter_all; [by destruct (working s)|].
  intros st Hst. cbn. apply (list_elem_of_fmap_2 st_id) in Hst.
  apply fresh_id_above in Hst. lia.
Qed.



(** ** Deleting one row *)

Lemma elem_of_delete_row {A} (key : A → Z) (obj : A) (table : list A) r :
  r ∈ delete_row key obj table ↔ r ∈ table ∧ key r ≠ key obj.
Proof. unfold delete_row. rewrite list_elem_of_filter. tauto. Qed.





(** ** Deleting a style format or a classification system *)

Lemma delete_style_format_cases s style_format_id :
  (¬ style_format_exists (working s) style_format_id
   ∧ delete_style_format style_format_id s
     = (Abort (mkAbort NotFound not_found_description), s))
  ∨ (∃ f, f ∈ style_formats (working s) ∧ sf_id f = style_format_id
          ∧ delete_style_format style_format_id s
            = (Ok tt, settled (set_style_formats (delete_row sf_id f) (working s)))).
Proof.
  unfold delete_style_format. rewrite bind_query.
  destruct (filter (λ f, sf_id f = style_format_id) (style_formats (working s)))
    as [|f fs] eqn:F.
  - left. split; [|done]. intros (f & Hf & Hid).
    by destruct (proj1 (filter_nil_iff _ _) F f Hf).
  - right. exists f.
    assert (Hin : f ∈ filter (λ f, sf_id f = style_format_id)
                        (style_formats (working s))) by (rewrite F; left).
    apply list_elem_of_filter in Hin as [Hid Hf]. done.
Qed.

(** X18.  [delete_style_format] signals NotFound exactly when no style
    format has the id.  Whatever its outcome, no style format with the id is
    there after the call and the formats with another id are all kept; so
    [get_style_format] then returns the dump of [None], and a second
    [delete_style_format] signals NotFound. *)
Theorem delete_style_format_then_absent
    (Serialized : Type) (StyleFormatsSchema_dump : option StyleFormats → Serialized)
    s style_format_id :
  let s' := (delete_style_format style_format_id s).2 in
  (signals (delete_style_format style_format_id s).1 NotFound
   ↔ ¬ style_format_exists (working s) style_format_id)
  ∧ ¬ style_format_exists (working s') style_format_id
  ∧ (∀ f, sf_id f ≠ style_format_id →
          (f ∈ style_formats (working s') ↔ f ∈ style_formats (working s)))
  ∧ get_style_format Serialized StyleFormatsSchema_dump style_format_id s'
    = (Ok (StyleFormatsSchema_dump None), s')
  ∧ delete_style_format style_format_id s'
    = (Abort (mkAbort NotFound not_found_description), s').
Proof.
  intros s'.
  assert (Hgone : ¬ style_format_exists (working s') style_format_id
                  ∧ (∀ f, sf_id f ≠ style_format_id →
                          (f ∈ style_formats (working s')
                           ↔ f ∈ style_formats (working s)))
                  ∧ (signals (delete_style_format style_format_id s).1 NotFound
                     ↔ ¬ style_format_exists (working s) style_format_id)).
  { subst s'.
    destruct (delete_style_format_cases s style_format_id)
      as [[Hnot Hrun]|(f & Hf & Hid & Hrun)]; rewrite Hrun; cbn.
    - done.
    - split; [|split].
      + intros (f' & Hf' & Hid'). apply elem_of_delete_row in Hf' as [_ Hne].
        congruence.
      + intros f' Hne. rewrite elem_of_delete_row, Hid. tauto.
      + split; [done|]. intros Hnot. destruct Hnot. by exists f. }
  destruct Hgone as (Hgone & Hkept & Hiff).
  split; [done|]. split; [done|]. split; [done|]. split.
  - unfold get_style_format. rewrite bind_query. cbv zeta.
    rewrite (proj2 (filter_nil_iff _ _)); [done|].
    intros f Hf Hid. apply Hgone. by exists f.
  - destruct (delete_style_format_cases s' style_format_id)
      as [[_ Hrun]|(f & Hf & Hid & _)]; [done|].
    destruct Hgone. by exists f.
Qed.

Lemma delete_classification_system_cases s system_id :
  (¬ system_exists (working s) system_id
   ∧ delete_classification_system system_id s
     = (Abort (mkAbort NotFound not_found_description), s))
  ∨ (∃ r, r ∈ systems (working s) ∧ cs_id r = system_id
          ∧ delete_classification_system system_id s
            = (Ok tt, settled (set_systems (delete_row cs_id r) (working s)))).
Proof.
  unfold delete_classification_system. rewrite bind_query.
  destruct (filter (λ r, cs_id r = system_id) (systems (working s)))
    as [|r rs] eqn:F.
  - left. split; [|done]. intros (r & Hr & Hid).
    by destruct (proj1 (filter_nil_iff _ _) F r Hr).
  - right. exists r.
    assert (Hin : r ∈ filter (λ r, cs_id r = system_id) (systems (working s)))
      by (rewrite F; left).
    apply list_elem_of_filter in Hin as [Hid Hr]. done.
Qed.

(** X19.  [delete_classification_system] signals NotFound exactly when no
    classification system has the id.  Whatever its outcome, no system with
    the id is there after the call and the systems with another id are all
    kept; so [classification_system], and with it [insert_classes] for any
    batch, then signals NotFound for the id. *)
Theorem delete_classification_system_then_absent s system_id :
  let s' := (delete_classification_system system_id s).2 in
  (signals (delete_classification_system system_id s).1 NotFound
   ↔ ¬ system_exists (working s) system_id)
  ∧ ¬ system_exists (working s') system_id
  ∧ (∀ r, cs_id r ≠ system_id →
          (r ∈ systems (working s') ↔ r ∈ systems (working s)))
  ∧ classification_system system_id s'
    = (Abort (mkAbort NotFound not_found_description), s')
  ∧ ∀ batch, insert_classes system_id batch s'
             = (Abort (mkAbort NotFound not_found_description), s').
Proof.
  intros s'.
  assert (Hgone : ¬ system_exists (working s') system_id
                  ∧ (∀ r, cs_id r ≠ system_id →
                          (r ∈ systems (working s') ↔ r ∈ systems (working s)))
                  ∧ (signals (delete_classification_system system_id s).1 NotFound
                     ↔ ¬ system_exists (working s) system_id)).
  { subst s'.
    destruct (delete_classification_system_cases s system_id)
      as [[Hnot Hrun]|(r & Hr & Hid & Hrun)]; rewrite Hrun; cbn.
    - done.
    - split; [|split].
      + intros (r' & Hr' & Hid'). apply elem_of_delete_row in Hr' as [_ Hne].
        congruence.
      + intros r' Hne. rewrite elem_of_delete_row, Hid. tauto.
      + split; [done|]. intros Hnot. destruct Hnot. by exists r. }
  destruct Hgone as (Hgone & Hkept & Hiff).
  split; [done|]. split; [done|]. split; [done|]. split.
  - by apply classification_system_absent.
  - intros batch. apply insert_classes_unknown_system.
    intros r Hr Hid. apply Hgone. by exists r.
Qed.

(** ** Reading classes through the join with their system *)

Lemma joined_class_elem (w : DB) system_id class_id c r :
  (c, r) ∈ filter (λ p : LucClass * LucClassificationSystem,
                     cs_id p.2 = system_id ∧ lc_id p.1 = class_id)
                  (join (classes w) (systems w)
                        (λ p, lc_class_system_id p.1 = cs_id p.2))
  ↔ c ∈ classes w ∧ r ∈ systems w ∧ cs_id r = system_id
    ∧ lc_id c = class_id ∧ lc_class_system_id c = system_id.
Proof.
  unfold join. rewrite !list_elem_of_filter, list_elem_of_cprod. cbn.
  split.
  - intros ([Hr Hc] & Hon & Hcin & Hrin). repeat split; try done. congruence.
  - intros (Hcin & Hrin & Hr & Hc & Hs). repeat split; try done. congruence.
Qed.

(** X20.  [get_classification_system_class] never changes the session.  It
    signals NotFound exactly when the class id does not resolve within the
    system or the system has no row; otherwise it returns the dump of the
    id, name, code, description and parent of a class with that id in that
    system. *)
Theorem get_classification_system_class_outcome
    (Serialized : Type)
    (ClassesSchema_dump_columns
       : Z * string * string * option string * option Z → Serialized)
    s system_id class_id :
  let run := get_classification_system_class Serialized ClassesSchema_dump_columns
               system_id class_id s in
  run.2 = s
  ∧ (signals run.1 NotFound
     ↔ ¬ (class_of_system (working s) class_id system_id
          ∧ system_exists (working s) system_id))
  ∧ (∀ e, run.1 = Abort e → code e = NotFound)
  ∧ ∀ out, run.1 = Ok out →
      ∃ c, c ∈ classes (working s) ∧ lc_id c = class_id
           ∧ lc_class_system_id c = system_id
           ∧ out = ClassesSchema_dump_columns (class_columns c).
Proof.
  intros run. subst run. unfold get_classification_system_class.
  rewrite !bind_query.
  destruct (filter (λ p : LucClass * LucClassificationSystem,
                      cs_id p.2 = system_id ∧ lc_id p.1 = class_id)
              (join (classes (working s)) (systems (working s))
                    (λ p, lc_class_system_id p.1 = cs_id p.2)))
    as [|[c r] rest] eqn:F; cbn.
  - split; [done|]. split; [|split; [by intros e [= <-]|done]].
    split; [|done]. intros _ [(c & Hc & Hid & Hs) (r & Hr & Hrid)].
    assert (Hin : (c, r) ∈ @nil (LucClass * LucClassificationSystem)).
    { rewrite <- F. by apply joined_class_elem. }
    by apply elem_of_nil in Hin.
  - assert (Hin : (c, r) ∈ filter
              (λ p : LucClass * LucClassificationSystem,
                 cs_id p.2 = system_id ∧ lc_id p.1 = class_id)
              (join (classes (working s)) (systems (working s))
                    (λ p, lc_class_system_id p.1 = cs_id p.2)))
      by (rewrite F; left).
    apply joined_class_elem in Hin as (Hc & Hr & Hrid & Hid & Hs).
    split; [done|]. split; [|split; [done|]].
    + split; [done|]. intros Hnot. destruct Hnot.
      split; [by exists c|by exists r].
    + intros out [= <-]. by exists c.
Qed.

Lemma filter_unique_key {A} (key : A → Z) (l : list A) x :
  NoDup (key <$> l) → x ∈ l → filter (λ r, key r = key x) l = [x].
Proof.
  induction l as [|a l IH]; intros Hnd Hx; [by apply elem_of_nil in Hx|].
  rewrite fmap_cons in Hnd. apply NoDup_cons in Hnd as [Ha Hnd].
  apply elem_of_cons in Hx as [->|Hx].
  - rewrite filter_cons_True by done. f_equal.
    apply filter_nil_iff. intros r Hr Hkey. apply Ha.
    rewrite <- Hkey. by apply list_elem_of_fmap_2.
  - rewrite filter_cons_False; [by apply IH|].
    intros Hkey. apply Ha. rewrite Hkey. by apply list_elem_of_fmap_2.
Qed.

Lemma joined_classes_of_system (cls : list LucClass)
    (sys : list LucClassificationSystem) system_id r0 :
  NoDup (cs_id <$> sys) → r0 ∈ sys → cs_id r0 = system_id →
  (λ p : LucClass * LucClassificationSystem, p.1) <$>
    filter (λ p : LucClass * LucClassificationSystem, cs_id p.2 = system_id)
           (join cls sys (λ p, lc_class_system_id p.1 = cs_id p.2))
  = filter (λ c, lc_class_system_id c = system_id) cls.
Proof.
  intros Hnd Hr0 Hid. unfold join. rewrite list_filter_filter.
  induction cls as [|c cls IH]; [done|].
  rewrite cprod_cons, filter_app, fmap_app, IH, filter_pairs_of. cbn [fst snd].
  destruct (decide (lc_class_system_id c = system_id)) as [Hc|Hc].
  - rewrite (filter_cons_True _ c) by done.
    rewrite (list_filter_iff _ (λ r, cs_id r = cs_id r0)).
    + by rewrite (filter_unique_key cs_id sys r0 Hnd Hr0).
    + intros r. rewrite Hid. split; [tauto|]. intros Hr. split; congruence.
  - rewrite (filter_cons_False _ c) by done.
    rewrite (proj2 (filter_nil_iff _ sys)); [done|].
    intros r _ [Hr Hon]. apply Hc. congruence.
Qed.

(** X21.  [get_classification_system_classes] signals NotFound, without
    changing the session, when the system has no row.  When it has one and
    the system identifiers are distinct, the call returns the dump of
    exactly the classes whose class_system_id is the id, each once and in
    storage order. *)
Theorem get_classification_system_classes_outcome
    (Serialized : Type) (ClassesSchema_dump_many : list LucClass → Serialized)
    s system_id :
  (¬ system_exists (working s) system_id →
   get_classification_system_classes Serialized ClassesSchema_dump_many system_id s
   = (Abort (mkAbort NotFound not_found_description), s))
  ∧ (NoDup (cs_id <$> systems (working s)) →
     system_exists (working s) system_id →
     get_classification_system_classes Serialized ClassesSchema_dump_many system_id s
     = (Ok (ClassesSchema_dump_many
              (filter (λ c, lc_class_system_id c = system_id)
                      (classes (working s)))), s)).
Proof.
  unfold get_classification_system_classes. rewrite bind_query. split.
  - intros Hnone. erewrite bind_abort; [done|].
    apply first_or_404_absent. intros r Hr Hid. apply Hnone. by exists r.
  - intros Hnd (r0 & Hr0 & Hid).
    destruct (first_or_404_found (λ r, cs_id r = system_id) _ r0 s Hr0 Hid)
      as (y & Hy & _).
    erewrite bind_ok; [|exact Hy]. rewrite !bind_query. cbv zeta.
    by rewrite (joined_classes_of_system _ _ _ r0 Hnd Hr0 Hid).
Qed.

(** X22.  [get_system_style_format] never aborts and never changes the
    session.  For the system id 0 it returns [None], whatever is stored;
    for any other id it returns the list of the style format ids for which
    a style of the system is stored. *)
Theorem get_system_style_format_outcome s system_id :
  get_system_style_format 0 s = (Ok None, s)
  ∧ (system_id ≠ 0 →
     ∃ l, get_system_style_format system_id s = (Ok (Some l), s)
          ∧ ∀ style_format_id,
              style_format_id ∈ l
              ↔ style_stored (working s) system_id style_format_id).
Proof.
  split; [done|]. intros Hnz. unfold get_system_style_format.
  rewrite (proj2 (Z.eqb_neq system_id 0) Hnz). cbn [negb].
  rewrite bind_query. cbv zeta. eexists. split; [reflexivity|].
  intros fid. rewrite list_elem_of_fmap. unfold style_stored. split.
  - intros (st & -> & Hst). apply list_elem_of_filter in Hst as [Hs Hst].
    by exists st.
  - intros (st & Hst & Hs & Hf). exists st. split; [done|].
    by apply list_elem_of_filter.
Qed.

(** ** The primary keys stay distinct *)

Section keeping_ids.

Lemma keeps_ret {A} (a : A) : keeps_ids (mret a : M A).
Proof. by intros s Hc Hw. Qed.

Lemma keeps_abort {A} c msg : keeps_ids (abort c msg : M A).
Proof. by intros s Hc Hw. Qed.

Lemma keeps_query {A} (table : DB → list A) : keeps_ids (query table).
Proof. by intros s Hc Hw. Qed.

Lemma keeps_first_or_404 {A} (rows : list A) : keeps_ids (first_or_404 rows).
Proof. intros s Hc Hw. by destruct rows. Qed.

Lemma keeps_commit : keeps_ids commit.
Proof. by intros s Hc Hw. Qed.

Lemma keeps_bind {A B} (m : M A) (f : A → M B) :
  keeps_ids m → (∀ a, keeps_ids (f a)) → keeps_ids (m ≫= f).
Proof.
  intros Hm Hf s Hc Hw. specialize (Hm s Hc Hw).
  unfold mbind, M_bind. destruct (m s) as [[a|e] s1]; cbn in Hm.
  - destruct Hm. by apply Hf.
  - done.
Qed.

Lemma keeps_begin_nested {A} (body : M A) :
  keeps_ids body → keeps_ids (begin_nested body).
Proof.
  intros Hbody s Hc Hw. specialize (Hbody s Hc Hw).
  unfold begin_nested. destruct (body s) as [[a|e] s1]; cbn in *; tauto.
Qed.

Lemma keeps_for_each {A} (xs : list A) (body : A → M unit) :
  (∀ x, keeps_ids (body x)) → keeps_ids (for_each xs body).
Proof.
  intros Hbody. induction xs as [|x xs IH]; cbn [for_each].
  - apply keeps_ret.
  - apply keeps_bind; [apply Hbody|]. by intros _.
Qed.

Lemma keeps_modify (f : DB → DB) :
  (∀ w, ids_distinct w → ids_distinct (f w)) → keeps_ids (modify f).
Proof. intros Hf s Hc Hw. cbn. split; [done|by apply Hf]. Qed.

Lemma NoDup_keys_delete_row {A} (key : A → Z) (obj : A) (table : list A) :
  NoDup (key <$> table) → NoDup (key <$> delete_row key obj table).
Proof.
  intros Hnd. apply (sublist_NoDup _ (key <$> table)); [done|].
  apply fmap_sublist, sublist_filter.
Qed.

Lemma keys_update_row {A} (key : A → Z) (obj : A) (table : list A) :
  key <$> update_row key obj table = key <$> table.
Proof.
  unfold update_row. rewrite <- list_fmap_compose.
  apply list_fmap_ext. intros _ r _. cbn. by case_decide.
Qed.

Lemma NoDup_keys_add {A} (key : A → Z) (new : Z → A) (table : list A) :
  (∀ i, key (new i) = i) →
  NoDup (key <$> table) →
  NoDup (key <$> table ++ [new (fresh_id (key <$> table))]).
Proof.
  intros Hkey Hnd. rewrite fmap_app. cbn. rewrite Hkey.
  by apply NoDup_snoc_fresh.
Qed.

Lemma keeps_add_system name authority_name version description :
  keeps_ids (add systems set_systems cs_id
               (λ i, mkSystem i name authority_name version description)).
Proof.
  intros s Hc (Hs & Hrest). cbn. split; [done|]. split; [|done].
  by apply (NoDup_keys_add cs_id (λ i, mkSystem i _ _ _ _)).
Qed.

Lemma keeps_add_class name code description system_id class_parent_id :
  keeps_ids (add classes set_classes lc_id
               (λ i, mkClass i name code description system_id class_parent_id)).
Proof.
  intros s Hc (Hs & Hcl & Hrest). cbn. split; [done|]. split; [done|].
  split; [|done].
  by apply (NoDup_keys_add lc_id (λ i, mkClass i _ _ _ _ _)).
Qed.

Lemma keeps_add_mapping source_class_id target_class_id description degree :
  keeps_ids (add mappings set_mappings cm_id
               (λ i, mkMapping i source_class_id target_class_id description degree)).
Proof.
  intros s Hc (Hs & Hcl & Hm & Hrest). cbn. split; [done|].
  split; [done|]. split; [done|]. split; [|done].
  by apply (NoDup_keys_add cm_id (λ i, mkMapping i _ _ _ _)).
Qed.

Lemma keeps_add_style_format name :
  keeps_ids (add style_formats set_style_formats sf_id (λ i, mkStyleFormat i name)).
Proof.
  intros s Hc (Hs & Hcl & Hm & Hf & Hst). cbn. split; [done|].
  split; [done|]. split; [done|]. split; [done|]. split; [|done].
  by apply (NoDup_keys_add sf_id (λ i, mkStyleFormat i _)).
Qed.

Lemma keeps_add_style system_id style_format_id mime_type payload :
  keeps_ids (add styles set_styles st_id
               (λ i, mkStyle i system_id style_format_id mime_type payload)).
Proof.
  intros s Hc (Hs & Hcl & Hm & Hf & Hst). cbn. split; [done|].
  split; [done|]. split; [done|]. split; [done|]. split; [done|].
  by apply (NoDup_keys_add st_id (λ i, mkStyle i _ _ _ _)).
Qed.

Lemma ids_delete_system r w :
  ids_distinct w → ids_distinct (set_systems (delete_row cs_id r) w).
Proof.
  intros (Hs & Hrest). split; [|done]. by apply NoDup_keys_delete_row.
Qed.

Lemma ids_delete_class c w :
  ids_distinct w → ids_distinct (set_classes (delete_row lc_id c) w).
Proof.
  intros (Hs & Hc & Hrest). split; [done|]. split; [|done].
  by apply NoDup_keys_delete_row.
Qed.

Lemma ids_delete_mapping m w :
  ids_distinct w → ids_distinct (set_mappings (delete_row cm_id m) w).
Proof.
  intros (Hs & Hc & Hm & Hrest). split; [done|]. split; [done|].
  split; [|done]. by apply NoDup_keys_delete_row.
Qed.

Lemma ids_delete_style_format f w :
  ids_distinct w → ids_distinct (set_style_formats (delete_row sf_id f) w).
Proof.
  intros (Hs & Hc & Hm & Hf & Hst). split; [done|]. split; [done|].
  split; [done|]. split; [|done]. by apply NoDup_keys_delete_row.
Qed.

Lemma ids_delete_style st w :
  ids_distinct w → ids_distinct (set_styles (delete_row st_id st) w).
Proof.
  intros (Hs & Hc & Hm & Hf & Hst). split; [done|]. split; [done|].
  split; [done|]. split; [done|]. by apply NoDup_keys_delete_row.
Qed.

Lemma ids_update_mapping m w :
  ids_distinct w → ids_distinct (set_mappings (update_row cm_id m) w).
Proof.
  intros (Hs & Hc & Hm & Hrest). split; [done|]. split; [done|].
  split; [|done]. cbn. by rewrite keys_update_row.
Qed.

Lemma ids_update_style_format f w :
  ids_distinct w → ids_distinct (set_style_formats (update_row sf_id f) w).
Proof.
  intros (Hs & Hc & Hm & Hf & Hst). split; [done|]. split; [done|].
  split; [done|]. split; [|done]. cbn. by rewrite keys_update_row.
Qed.

Lemma ids_update_style st w :
  ids_distinct w → ids_distinct (set_styles (update_row st_id st) w).
Proof.
  intros (Hs & Hc & Hm & Hf & Hst). split; [done|]. split; [done|].
  split; [done|]. split; [done|]. cbn. by rewrite keys_update_row.
Qed.

End keeping_ids.

Create HintDb keeps.

#[export] Hint Resolve keeps_ret keeps_abort keeps_query keeps_first_or_404
  keeps_commit keeps_begin_nested keeps_for_each keeps_modify
  keeps_add_system keeps_add_class keeps_add_mapping keeps_add_style_format
  keeps_add_style ids_delete_system ids_delete_class ids_delete_mapping
  ids_delete_style_format ids_delete_style ids_update_mapping
  ids_update_style_format ids_update_style : keeps.

Ltac keeps_step :=
  match goal with
  | |- keeps_ids (_ ≫= _) => apply keeps_bind; [|intros ?]
  | |- keeps_ids (if ?b then _ else _) => destruct b
  | |- keeps_ids (begin_nested _) => apply keeps_begin_nested
  | |- keeps_ids (for_each _ _) => apply keeps_for_each; intros ?
  | |- keeps_ids _ => solve [eauto with keeps]
  end.

Ltac keeps := cbv zeta; repeat keeps_step.

Lemma keeps_get_system_mapping src tgt : keeps_ids (get_system_mapping src tgt).
Proof. unfold get_system_mapping. keeps. Qed.

Lemma keeps_classification_system system_id :
  keeps_ids (classification_system system_id).
Proof. unfold classification_system. keeps. Qed.

Lemma keeps_insert_mapping src tgt tc sc d deg :
  keeps_ids (insert_mapping src tgt tc sc d deg).
Proof. unfold insert_mapping. keeps. Qed.

Lemma keeps_update_mapping src tgt tc sc d deg :
  keeps_ids (update_mapping src tgt tc sc d deg).
Proof. unfold update_mapping, setattr_mapping. keeps. Qed.

#[export] Hint Resolve keeps_get_system_mapping keeps_classification_system
  keeps_insert_mapping keeps_update_mapping : keeps.


(** ** The reading functions leave the session alone *)

Lemma read_only_ret {A} (a : A) : read_only (mret a : M A).
Proof. by intros s. Qed.

Lemma read_only_query {A} (table : DB → list A) : read_only (query table).
Proof. by intros s. Qed.

Lemma read_only_first_or_404 {A} (rows : list A) : read_only (first_or_404 rows).
Proof. intros s. by destruct rows. Qed.

Lemma read_only_bind {A B} (m : M A) (f : A → M B) :
  read_only m → (∀ a, read_only (f a)) → read_only (m ≫= f).
Proof.
  intros Hm Hf s. specialize (Hm s). unfold mbind, M_bind.
  destruct (m s) as [[a|e] s1]; cbn in Hm; subst s1; [apply Hf|done].
Qed.

Create HintDb readers.

#[export] Hint Resolve read_only_ret read_only_query read_only_first_or_404
  : readers.

Ltac readers_step :=
  match goal with
  | |- read_only (_ ≫= _) => apply read_only_bind; [|intros ?]
  | |- read_only (if ?b then _ else _) => destruct b
  | |- read_only _ => solve [eauto with readers]
  end.

Ltac readers := cbv zeta; repeat readers_step.

Lemma read_only_get_system_mapping src tgt : read_only (get_system_mapping src tgt).
Proof. unfold get_system_mapping. readers. Qed.

#[export] Hint Resolve read_only_get_system_mapping : readers.

(** X24.  None of the reading functions of the module changes the session,
    neither what is committed nor what the open transaction sees, whether
    it returns or signals NotFound. *)
Theorem readers_leave_session
    (Serialized : Type)
    (StyleFormatsSchema_dump : option StyleFormats → Serialized)
    (ClassificationSystemSchema_dump : LucClassificationSystem → Serialized)
    (ClassificationSystemSchema_dump_many : list LucClassificationSystem → Serialized)
    (ClassesSchema_dump_many : list LucClass → Serialized)
    (ClassesSchema_dump_columns
       : Z * string * string * option string * option Z → Serialized)
    (StyleFormatsSchema_dump_many_ids : list Z → Serialized)
    (ClassesMappingSchema_dump_many : list ClassMapping → Serialized) :
  read_only (get_classification_systems Serialized ClassificationSystemSchema_dump_many)
  ∧ (∀ system_id,
       read_only (get_classification_system Serialized
                    ClassificationSystemSchema_dump system_id))
  ∧ (∀ system_id,
       read_only (get_classification_system_classes Serialized
                    ClassesSchema_dump_many system_id))
  ∧ (∀ system_id class_id,
       read_only (get_classification_system_class Serialized
                    ClassesSchema_dump_columns system_id class_id))
  ∧ read_only (get_style_formats Serialized StyleFormatsSchema_dump_many_ids)
  ∧ (∀ style_format_id,
       read_only (get_style_format Serialized StyleFormatsSchema_dump
                    style_format_id))
  ∧ (∀ system_id, read_only (get_system_style_format system_id))
  ∧ (∀ system_id style_format_id,
       read_only (get_classification_system_style system_id style_format_id))
  ∧ (∀ src, read_only (get_mappings src))
  ∧ (∀ src tgt, read_only (get_system_mapping src tgt))
  ∧ (∀ src tgt,
       read_only (get_mapping Serialized ClassesMappingSchema_dump_many src tgt))
  ∧ (∀ system_id, read_only (classification_system system_id))
  ∧ (∀ name version, read_only (get_identifier_system name version))
  ∧ (∀ name, read_only (get_identifier_style_format name)).
Proof.
  repeat match goal with |- _ ∧ _ => split end; intros.
  - unfold get_classification_systems. readers.
  - unfold get_classification_system. readers.
  - unfold get_classification_system_classes. readers.
  - unfold get_classification_system_class. readers.
  - unfold get_style_formats. readers.
  - unfold get_style_format. readers.
  - unfold get_system_style_format. readers.
  - unfold get_classification_system_style. readers.
  - unfold get_mappings. readers.
  - unfold get_system_mapping. readers.
  - unfold get_mapping. readers.
  - unfold classification_system. readers.
  - unfold get_identifier_system. readers.
  - unfold get_identifier_style_format. readers.
Qed.

(** ** The further properties on the sample store *)


Lemma sample_resolves_Forest : resolves sample_db 1 2 Forest_mapping.
Proof.
  split; [exists Forest|exists Deforestation]; repeat split.
  - left.
  - right. right. left.
Defined.

Lemma sample_resolves_Water : resolves sample_db 1 2 Water_mapping.
Proof.
  split; [exists Water|exists Deforestation]; repeat split.
  - right. left.
  - right. right. left.
Defined.

Lemma sample_foreign_unresolved : ¬ resolves sample_db 1 2 foreign_mapping.
Proof.
  intros [(c & Hc & Hid & Hs) _]. cbn in Hc.
  repeat (apply elem_of_cons in Hc as [->|Hc]; [by cbn in *|]).
  by apply elem_of_nil in Hc.
Defined.

Lemma create_classification_system_then_identify_sample :
  create_classification_system "CORINE" "EEA" "2018" None sample_session
  = (Ok (mkSystem 3 "CORINE" "EEA" "2018" None),
     settled (set_systems (λ t, t ++ [mkSystem 3 "CORINE" "EEA" "2018" None])
                          sample_db))
  ∧ get_identifier_system "CORINE" "2018"
      (settled (set_systems (λ t, t ++ [mkSystem 3 "CORINE" "EEA" "2018" None])
                            sample_db))
    = (Ok (mkSystem 3 "CORINE" "EEA" "2018" None),
       settled (set_systems (λ t, t ++ [mkSystem 3 "CORINE" "EEA" "2018" None])
                            sample_db)).
Proof.
  destruct (create_classification_system_then_identify sample_session
              "CORINE" "EEA" "2018" None) as (Hrun & _ & Hget & _).
  - intros r Hr [Hn _]. cbn in Hr.
    repeat (apply elem_of_cons in Hr as [->|Hr]; [by cbn in Hn|]).
    by apply elem_of_nil in Hr.
  - split; [exact Hrun|exact Hget].
Defined.

Lemma create_style_format_then_identify_sample :
  create_style_format "SLD" sample_session
  = (Ok (mkStyleFormat 2 "SLD"),
     settled (set_style_formats (λ t, t ++ [mkStyleFormat 2 "SLD"]) sample_db))
  ∧ get_identifier_style_format "SLD"
      (settled (set_style_formats (λ t, t ++ [mkStyleFormat 2 "SLD"]) sample_db))
    = (Ok (mkStyleFormat 2 "SLD"),
       settled (set_style_formats (λ t, t ++ [mkStyleFormat 2 "SLD"]) sample_db)).
Proof.
  destruct (create_style_format_then_identify sample_session "SLD")
    as (Hrun & _ & Hget & _).
  - intros f Hf Hn. cbn in Hf.
    apply list_elem_of_singleton in Hf as ->. by cbn in Hn.
  - split; [exact Hrun|exact Hget].
Defined.

Lemma sample_batch_free :
  NoDup (cd_name <$> [Urban_descriptor; Crop_descriptor])
  ∧ ∀ d, d ∈ [Urban_descriptor; Crop_descriptor] →
         ¬ name_taken (working sample_session) 1 (cd_name d).
Proof.
  split; [apply (bool_decide_unpack _); vm_compute; exact I|].
  intros d Hd (c & Hc & _ & Hn). cbn in Hc.
  repeat (apply elem_of_cons in Hd as [->|Hd];
          [repeat (apply elem_of_cons in Hc as [->|Hc]; [by cbn in Hn|]);
           by apply elem_of_nil in Hc|]).
  by apply elem_of_nil in Hd.
Defined.

Lemma insert_classes_adds_batch_sample :
  insert_classes 1 [Urban_descriptor; Crop_descriptor] sample_session
  = (Ok [Forest; Water;
         mkClass 4 "Urban" "U" None 1 None;
         mkClass 5 "Crop" "C" (Some "cultivated land") 1 (Some 1)],
     settled (classes_added 1 sample_db [Urban_descriptor; Crop_descriptor])).
Proof.
  destruct sample_batch_free as [Hnd Hfree].
  exact (proj1 (insert_classes_adds_batch sample_session 1
                  [Urban_descriptor; Crop_descriptor]
                  (ex_intro _ IBGE (conj (list_elem_of_here _ _) eq_refl))
                  Hnd Hfree)).
Defined.

Lemma insert_classes_all_or_nothing_sample :
  ¬ (∃ out s', insert_classes 1 [Urban_descriptor; Urban_descriptor] sample_session
               = (Ok out, s'))
  ∧ (insert_classes 1 [Urban_descriptor; Urban_descriptor] sample_session).2
    = sample_session.
Proof.
  destruct (insert_classes_all_or_nothing sample_session 1
              [Urban_descriptor; Urban_descriptor]) as [Hiff Habort].
  assert (Hno : ¬ (∃ out s',
            insert_classes 1 [Urban_descriptor; Urban_descriptor] sample_session
            = (Ok out, s'))).
  { intros Hok. apply (proj1 Hiff) in Hok as (_ & Hnd & _).
    rewrite fmap_cons in Hnd. apply NoDup_cons in Hnd as [Hnotin _].
    apply Hnotin. left. }
  split; [exact Hno|].
  destruct (insert_classes 1 [Urban_descriptor; Urban_descriptor] sample_session)
    as [[out|e] s'] eqn:E.
  - destruct Hno. by exists out, s'.
  - exact (proj1 (Habort e s' eq_refl)).
Defined.

Lemma insert_mappings_keeps_earlier_sample :
  insert_mappings (list ClassMapping) id 1 2
                  [Forest_mapping; foreign_mapping; Water_mapping] sample_session
  = (Abort (mkAbort NotFound not_found_description),
     after_inserts sample_session [Forest_mapping])
  ∧ mappings (committed (after_inserts sample_session [Forest_mapping]))
    = [mkMapping 1 1 3 (Some "burnt") (Some (5 # 10)%Q)].
Proof.
  destruct (insert_mappings_keeps_earlier (list ClassMapping) id sample_session
              1 2 [Forest_mapping] foreign_mapping [Water_mapping])
    as (Hrun & _ & _).
  - constructor; [exact sample_resolves_Forest|constructor].
  - exact sample_foreign_unresolved.
  - split; [exact Hrun|reflexivity].
Defined.

Lemma insert_mappings_stores_all_sample :
  ∃ resolved rows,
    insert_mappings (list ClassMapping) id 1 2 [Forest_mapping; Water_mapping]
                    sample_session
    = (Ok resolved, after_inserts sample_session [Forest_mapping; Water_mapping])
    ∧ Forall2 carries [Forest_mapping; Water_mapping] rows
    ∧ ∀ m, m ∈ rows → m ∈ resolved.
Proof.
  destruct (insert_mappings_stores_all (list ClassMapping) id sample_session 1 2
              [Forest_mapping; Water_mapping])
    as (resolved & rows & Hrun & _ & _ & Hcarries & Hin & _).
  - constructor; [exact sample_resolves_Forest|].
    constructor; [exact sample_resolves_Water|constructor].
  - exists resolved, rows. by split.
Defined.

Lemma delete_mappings_removes_exactly_sample :
  ∃ w, delete_mappings 1 2 mapped_session = (Ok tt, settled w)
       ∧ ∀ m, m ∈ mappings w
              ↔ m ∈ mappings (working mapped_session)
                ∧ ¬ maps_between (working mapped_session) 1 2 m.
Proof.
  destruct (delete_mappings_removes_exactly mapped_session 1 2)
    as (w & Hrun & _ & Helem & _).
  - apply (bool_decide_unpack _). vm_compute. exact I.
  - exists w. by split.
Defined.

Lemma update_mapping_not_found_iff_sample :
  signals (update_mapping 1 2 3 1 (Some "burnt") None sample_session).1 NotFound.
Proof.
  apply (proj1 (update_mapping_not_found_iff sample_session 1 2 3 1
                  (Some "burnt") None)).
  right. right. intros (m & Hm & _). by apply elem_of_nil in Hm.
Defined.

Lemma update_mappings_keeps_earlier_sample :
  ∃ out s1,
    update_mappings (list ClassMapping) id 1 2 [Forest_mapping] mapped_session
    = (Ok out, s1)
    ∧ update_mappings (list ClassMapping) id 1 2
                      [Forest_mapping; Water_mapping; Forest_mapping]
                      mapped_session
      = (Abort (mkAbort NotFound not_found_description), s1).
Proof.
  destruct (update_mappings_keeps_earlier (list ClassMapping) id mapped_session
              1 2 [Forest_mapping] Water_mapping [Forest_mapping])
    as (out & s1 & Hok & Habort & _).
  - apply (bool_decide_unpack _). vm_compute. exact I.
  - constructor; [|constructor]. split; [exact sample_resolves_Forest|].
    exists Forest_to_Deforestation. repeat split. left.
  - intros [_ (m & Hm & Hs & _)]. cbn in Hm.
    apply list_elem_of_singleton in Hm as ->. by cbn in Hs.
  - exists out, s1. by split.
Defined.

Lemma insert_mappings_makes_reachable_sample :
  ∃ out s1 l,
    insert_mappings (list ClassMapping) id 1 2 [Forest_mapping] sample_session
    = (Ok out, s1)
    ∧ get_mappings 1 s1 = (Ok l, s1)
    ∧ 2 ∈ l.
Proof.
  apply (insert_mappings_makes_reachable (list ClassMapping) id sample_session
           1 2 [Forest_mapping]).
  - done.
  - constructor; [exact sample_resolves_Forest|constructor].
  - exists PRODES. repeat split. right. left.
Defined.

Lemma get_classification_system_style_outcome_sample :
  get_classification_system_style 1 1 sample_session = (Ok None, sample_session).
Proof.
  destruct (get_classification_system_style_outcome sample_session 1 1)
    as (out & Hrun & Hnone & _).
  rewrite Hrun. f_equal. f_equal. apply Hnone. left.
  intros (st & Hst & _). by apply elem_of_nil in Hst.
Defined.

Lemma insert_file_not_found_iff_sample :
  signals (insert_file sample_mimetype 9 1 legend_file sample_session).1 NotFound.
Proof.
  apply (proj1 (insert_file_not_found_iff sample_mimetype sample_session 9 1
                  legend_file)).
  right. intros (f & Hf & Hid). cbn in Hf.
  apply list_elem_of_singleton in Hf as ->. by cbn in Hid.
Defined.

Lemma insert_file_then_delete_file_sample :
  (insert_file sample_mimetype 1 1 legend_file ;; delete_file 1 1) sample_session
  = (Ok tt, sample_session).
Proof.
  apply (insert_file_then_delete_file sample_mimetype sample_session 1 1 legend_file).
  - exists IBGE. repeat split. left.
  - exists QML. repeat split. left.
  - intros (st & Hst & _). by apply elem_of_nil in Hst.
Defined.




Lemma delete_style_format_then_absent_sample :
  get_style_format (option StyleFormats) id 1
                   (delete_style_format 1 sample_session).2
  = (Ok None, (delete_style_format 1 sample_session).2)
  ∧ ∀ f, sf_id f ≠ 1 →
         (f ∈ style_formats (working (delete_style_format 1 sample_session).2)
          ↔ f ∈ style_formats (working sample_session)).
Proof.
  destruct (delete_style_format_then_absent (option StyleFormats) id
              sample_session 1) as (_ & _ & Hkept & Hget & _).
  by split.
Defined.

Lemma delete_classification_system_then_absent_sample :
  classification_system 1 (delete_classification_system 1 sample_session).2
  = (Abort (mkAbort NotFound not_found_description),
     (delete_classification_system 1 sample_session).2)
  ∧ ∀ r, cs_id r ≠ 1 →
         (r ∈ systems (working (delete_classification_system 1 sample_session).2)
          ↔ r ∈ systems (working sample_session)).
Proof.
  destruct (delete_classification_system_then_absent sample_session 1)
    as (_ & _ & Hkept & Hget & _).
  by split.
Defined.

Lemma get_classification_system_class_outcome_sample :
  signals
    (get_classification_system_class
       (Z * string * string * option string * option Z) id 2 1 sample_session).1
    NotFound.
Proof.
  apply (proj1 (proj2 (get_classification_system_class_outcome
                         (Z * string * string * option string * option Z) id
                         sample_session 2 1))).
  intros [(c & Hc & Hid & Hs) _]. cbn in Hc.
  repeat (apply elem_of_cons in Hc as [->|Hc]; [by cbn in *|]).
  by apply elem_of_nil in Hc.
Defined.

Lemma get_classification_system_classes_outcome_sample :
  get_classification_system_classes (list LucClass) id 1 sample_session
  = (Ok [Forest; Water], sample_session).
Proof.
  apply (proj2 (get_classification_system_classes_outcome (list LucClass) id
                  sample_session 1)).
  - apply (bool_decide_unpack _). vm_compute. exact I.
  - exists IBGE. repeat split. left.
Defined.

Lemma get_system_style_format_outcome_sample :
  ∃ l, get_system_style_format 1 styled_session = (Ok (Some l), styled_session)
       ∧ ∀ style_format_id,
           style_format_id ∈ l
           ↔ style_stored (working styled_session) 1 style_format_id.
Proof.
  apply (proj2 (get_system_style_format_outcome styled_session 1)). done.
Defined.


(** ** Renaming a style format *)




